(** * PreviewManager (src/features/previewManager.ts)

    A shallow embedding of the preview manager of the SVG previewer: the
    tracked collection [_previews], the focus pointer [_activePreview], the
    [svgPreviewFocus] context key, and the handlers the host calls.

    JavaScript objects are compared by identity, so a [Preview] is a
    reference (a [nat]) and its mutable fields live in a store shared by
    the manager and the host.  Every method is an action of a small state and
    exception monad over the [World]: the manager's fields, the store of
    preview objects, the host state the manager reads, and the log of the
    calls it makes on its collaborators. *)

From Stdlib Require Import ZArith Lia.
From stdpp Require Import base option list strings gmap.

Local Open Scope Z_scope.

(** ** Data model *)

(** [vscode.Uri], through the two observations the manager makes of it:
    [uri.toString()] and [uri.fsPath]. *)
Record Uri := mkUri { toString : string; fsPath : string }.

(** [vscode.ViewColumn]: the two symbolic tokens of the host API; the
    editor columns themselves are [1], [2], ... *)
Module ViewColumn.
Definition Active : Z := -1.
Definition Beside : Z := -2.
Definition One : Z := 1.
Definition Two : Z := 2.
Definition Three : Z := 3.
End ViewColumn.

(** A field of type [ViewColumn | undefined] is an [option Z]. *)
Definition Column := option Z.

(** The value of [<number>c + 1]: [undefined + 1] is [NaN]. *)
Inductive Number := Finite (z : Z) | NaN.

Definition plus_one (c : Column) : Number :=
  match c with
  | Some z => Finite (z + 1)
  | None => NaN
  end.

(** [a === b] for two [ViewColumn | undefined] values. *)
Definition strict_eq (a b : Column) : bool :=
  match a, b with
  | Some x, Some y => x =? y
  | None, None => true
  | _, _ => false
  end.

(** [a === n] for a [ViewColumn | undefined] against a number: [NaN] and
    [undefined] are equal to no number. *)
Definition strict_eq_number (a : Column) (n : Number) : bool :=
  match a, n with
  | Some x, Finite y => x =? y
  | _, _ => false
  end.

(** [vscode.TextEditor]: [editor.document.uri] and [editor.viewColumn]. *)
Record TextEditor := mkEditor { document_uri : Uri; editor_viewColumn : Column }.

(** A [Preview] is a reference; [PreviewObject] holds the fields the manager
    reads: [preview.source] and [preview.panel.viewColumn]. *)
Definition Preview := nat.

Record PreviewObject := mkPreview { source : Uri; panel_viewColumn : Column }.

(** The calls the manager makes on the host and on its collaborators. *)
Inductive Effect :=
| SetContext (key : string) (value : bool)
| PreviewCreate (uri : Uri) (viewColumn : Z)
| PreviewUpdate (preview : Preview) (uri : option Uri)
| PanelReveal (preview : Preview) (viewColumn : Column)
| OpenTextDocument (uri : Uri)
| SendTelemetryEvent (name : string) (properties : list (string * string)).

Record World := mkWorld {
  _previews : list Preview;
  _activePreview : option Preview;
  objects : gmap Preview PreviewObject;
  contextKeys : gmap string bool;
  activeTextEditor : option TextEditor;
  autoOpen : bool;
  log : list Effect
}.

(** ** The monad of the methods: state, and synchronous exceptions *)

Inductive JsError := TypeError.

Inductive Completion (A : Type) :=
| Normal (a : A)
| Throw (e : JsError).
Arguments Normal {A} a.
Arguments Throw {A} e.

Definition M (A : Type) : Type := World -> Completion A * World.

Definition ret {A} (a : A) : M A := fun w => (Normal a, w).

Definition bind {A B} (m : M A) (k : A -> M B) : M B :=
  fun w =>
    match m w with
    | (Normal a, w') => k a w'
    | (Throw e, w') => (Throw e, w')
    end.

Definition throw {A} (e : JsError) : M A := fun w => (Throw e, w).

Declare Scope js_scope.
Delimit Scope js_scope with js.
Notation "x <- m ;; k" := (bind m (fun x => k))
  (at level 100, m at next level, k at level 200, right associativity)
  : js_scope.
Notation "m ;; k" := (bind m (fun _ => k))
  (at level 100, k at level 200, right associativity) : js_scope.
Local Open Scope js_scope.

Definition get : M World := fun w => (Normal w, w).
Definition modify (f : World -> World) : M unit := fun w => (Normal tt, f w).

Definition exec {A} (m : M A) (w : World) : World := snd (m w).
Definition result {A} (m : M A) (w : World) : Completion A := fst (m w).

(** Field writes. *)
Definition with_previews (ps : list Preview) (w : World) : World :=
  mkWorld ps (_activePreview w) (objects w) (contextKeys w)
          (activeTextEditor w) (autoOpen w) (log w).

Definition with_activePreview (a : option Preview) (w : World) : World :=
  mkWorld (_previews w) a (objects w) (contextKeys w)
          (activeTextEditor w) (autoOpen w) (log w).

Definition with_objects (h : gmap Preview PreviewObject) (w : World) : World :=
  mkWorld (_previews w) (_activePreview w) h (contextKeys w)
          (activeTextEditor w) (autoOpen w) (log w).

Definition with_contextKeys (c : gmap string bool) (w : World) : World :=
  mkWorld (_previews w) (_activePreview w) (objects w) c
          (activeTextEditor w) (autoOpen w) (log w).

Definition with_activeTextEditor (e : option TextEditor) (w : World) : World :=
  mkWorld (_previews w) (_activePreview w) (objects w) (contextKeys w)
          e (autoOpen w) (log w).

Definition with_autoOpen (b : bool) (w : World) : World :=
  mkWorld (_previews w) (_activePreview w) (objects w) (contextKeys w)
          (activeTextEditor w) b (log w).

Definition emit (e : Effect) (w : World) : World :=
  mkWorld (_previews w) (_activePreview w) (objects w) (contextKeys w)
          (activeTextEditor w) (autoOpen w) (log w ++ [e]).

(** ** Array operations of the JavaScript runtime *)

(** [Array.prototype.indexOf]: the index of the first element identical to
    [x], or [-1]. *)
Fixpoint indexOf_from (x : Preview) (l : list Preview) (i : Z) : Z :=
  match l with
  | [] => -1
  | y :: t => if Nat.eqb y x then i else indexOf_from x t (i + 1)
  end.

Definition indexOf (x : Preview) (l : list Preview) : Z := indexOf_from x l 0.

(** [Array.prototype.splice(start, deleteCount)], as the array that is left:
    a negative [start] counts from the end. *)
Definition splice {A} (start deleteCount : Z) (l : list A) : list A :=
  let len := Z.of_nat (length l) in
  let actualStart :=
    if start <? 0 then Z.max (len + start) 0 else Z.min start len in
  let actualDeleteCount := Z.min (Z.max deleteCount 0) (len - actualStart) in
  take (Z.to_nat actualStart) l
    ++ drop (Z.to_nat (actualStart + actualDeleteCount)) l.

(** [Array.prototype.forEach]. *)
Fixpoint forEach {A} (f : A -> M unit) (l : list A) : M unit :=
  match l with
  | [] => ret tt
  | x :: t => f x ;; forEach f t
  end.

(** [Array.prototype.find] is [List.find]. *)
Definition find {A} := @List.find A.

(** ** The Preview collaborator *)

(** The fields of a tracked preview; a reference that is in use always has
    an object, the default is never read on one. *)
Definition object_of (w : World) (p : Preview) : PreviewObject :=
  default (mkPreview (mkUri EmptyString EmptyString) None) (objects w !! p).

Definition source_of (w : World) (p : Preview) : Uri := source (object_of w p).
Definition viewColumn_of (w : World) (p : Preview) : Column :=
  panel_viewColumn (object_of w p).

(** Modelled from the spec: [Preview.update] of previewPanel.ts, which is not
    among the sources.  [update(uri?)] re-renders, optionally against a new
    source: the call is logged, and a given [uri] becomes the source. *)
Definition Preview_update (preview : Preview) (uri : option Uri) : M unit :=
  modify (fun w =>
    emit (PreviewUpdate preview uri)
      (match uri with
       | Some u =>
           with_objects
             (alter (fun o => mkPreview u (panel_viewColumn o)) preview
                    (objects w)) w
       | None => w
       end)).

(** Modelled from the spec: [panel.reveal] of the host.  Revealing a panel
    on the column it occupies raises it and moves nothing. *)
Definition Panel_reveal (preview : Preview) (viewColumn : Column) : M unit :=
  modify (emit (PanelReveal preview viewColumn)).

(** ** Events *)

(** What the host may do between two handlers, and the handlers it runs.
    [Fire_onDispose p] and [Fire_onDidChangeViewState p a] are one run of
    the callback that [registerPreview p] subscribed.  [Resolve_create] and
    [Resolve_revive] are the continuations of [showPreview] and of
    [deserializeWebviewPanel] after their [await]: the collaborator hands
    over the new preview [preview] with the fields [obj].  The manager's
    [dispose] only calls [dispose] on its collaborators; what the previews
    fire in return arrives as [Fire_onDispose]. *)
Inductive Event :=
| Call_showPreview (uri : Uri) (viewColumn : Z)
| Resolve_create (preview : Preview) (obj : PreviewObject) (uri : Uri)
| Call_showSource
| Resolve_revive (preview : Preview) (obj : PreviewObject)
| Fire_onDispose (preview : Preview)
| Fire_onDidChangeViewState (preview : Preview) (webviewPanel_active : bool)
| Fire_onDidChangeTextDocument (document_uri : Uri)
| Fire_onDidChangeActiveTextEditor (editor : option TextEditor)
| Host_activeTextEditor (editor : option TextEditor)
| Host_configuration (autoOpen : bool)
| Host_movePanel (preview : Preview) (viewColumn : Column).

(** ** Sample data for the concrete runs *)

Definition a_svg : Uri := mkUri "file:///work/a.svg" "/work/a.svg".
Definition b_svg : Uri := mkUri "file:///work/b.svg" "/work/b.svg".

(** A sample [isSvgUri]: the path ends in [.svg]. *)
Definition sample_isSvgUri (uri : Uri) : bool :=
  let path := fsPath uri in
  String.eqb (String.substring (String.length path - 4) 4 path) ".svg".

Definition sample_event_name : string := "svg.showPreviewToSide".

Definition notes_txt : Uri := mkUri "file:///work/notes.txt" "/work/notes.txt".

(** An editor on a.svg in the first column. *)
Definition editor_a : TextEditor := mkEditor a_svg (Some ViewColumn.One).

(** Two previews registered one after the other; the second holds focus. *)
Definition two_registrations : list Event :=
  [Resolve_revive 0%nat (mkPreview a_svg (Some 2));
   Resolve_revive 1%nat (mkPreview b_svg (Some 3))].

(** b.svg previewed once, a.svg twice. *)
Definition three_registrations : list Event :=
  [Resolve_revive 0%nat (mkPreview b_svg (Some 1));
   Resolve_revive 1%nat (mkPreview a_svg (Some 2));
   Resolve_revive 2%nat (mkPreview a_svg (Some 3))].

(** A preview is disposed, and its panel reports itself active afterwards. *)
Definition focus_after_disposal : list Event :=
  [Resolve_revive 0%nat (mkPreview a_svg (Some 2));
   Fire_onDispose 0%nat;
   Fire_onDidChangeViewState 0%nat true].

(** A preview is disposed twice; the other one then gains focus. *)
Definition double_disposal : list Event :=
  two_registrations
  ++ [Fire_onDispose 0%nat; Fire_onDispose 0%nat;
      Fire_onDidChangeViewState 1%nat true].

(** Focus moves between two live previews, and one of them is disposed. *)
Definition focus_churn : list Event :=
  two_registrations
  ++ [Fire_onDidChangeViewState 0%nat true;
      Fire_onDispose 1%nat;
      Fire_onDidChangeViewState 0%nat true].

(** ** The manager *)

Section PreviewManager.

(** [isSvgUri] of ../utils and the event name of ../telemetry are not among
    the sources: the manager is verified for every choice of them. *)
Variable isSvgUri : Uri -> bool.
Variable TELEMETRY_EVENT_SHOW_PREVIEW_TO_SIDE : string.

Definition svgPreviewFocusContextKey : string := "svgPreviewFocus".

(** [vscode.commands.executeCommand('setContext', key, value)]. *)
Definition setSvgPreviewFocusContext (value : bool) : M unit :=
  modify (fun w =>
    emit (SetContext svgPreviewFocusContextKey value)
      (with_contextKeys
         (<[svgPreviewFocusContextKey := value]> (contextKeys w)) w)).

Definition onPreviewFocus (preview : Preview) : M unit :=
  modify (with_activePreview (Some preview)) ;;
  setSvgPreviewFocusContext true.

Definition onPreviewBlur : M unit :=
  modify (with_activePreview None) ;;
  setSvgPreviewFocusContext false.

(** The callback [registerPreview] passes to [preview.onDispose]. *)
Definition onDispose_callback (preview : Preview) : M unit :=
  onPreviewBlur ;;
  w <- get ;;
  modify (with_previews
            (splice (indexOf preview (_previews w)) 1 (_previews w))).

(** The callback [registerPreview] passes to [preview.onDidChangeViewState];
    [webviewPanel_active] is [webviewPanel.active] of the event. *)
Definition onDidChangeViewState_callback
    (preview : Preview) (webviewPanel_active : bool) : M unit :=
  if webviewPanel_active then onPreviewFocus preview else onPreviewBlur.

(** The two callbacks are subscribed here; they run when the preview fires
    its events, see [Event]. *)
Definition registerPreview (preview : Preview) : M unit :=
  modify (fun w => with_previews (_previews w ++ [preview]) w) ;;
  onPreviewFocus preview.

Definition activeViewColumn (w : World) : Column :=
  match activeTextEditor w with
  | Some editor => editor_viewColumn editor
  | None => Some ViewColumn.Active
  end.

Definition getPreviewOnTargetColumn (viewColumn : Z) : M (option Preview) :=
  w <- get ;;
  ret (if viewColumn =? ViewColumn.Active
       then find (fun preview =>
                    strict_eq (viewColumn_of w preview) (activeViewColumn w))
                 (_previews w)
       else find (fun preview =>
                    strict_eq_number (viewColumn_of w preview)
                                     (plus_one (activeViewColumn w)))
                 (_previews w)).

Definition getPreviewOf (resource : Uri) : M (option Preview) :=
  w <- get ;;
  ret (find (fun p => String.eqb (fsPath (source_of w p)) (fsPath resource))
            (_previews w)).

Definition isActivePreviewUri (uri : Uri) : M bool :=
  w <- get ;;
  ret (match _activePreview w with
       | Some a => String.eqb (toString (source_of w a)) (toString uri)
       | None => false
       end).

Definition shouldAutoOpenPreviewForEditor (editor : TextEditor) : M bool :=
  w <- get ;;
  let isAutoOpen := autoOpen w in
  if isAutoOpen then
    if isSvgUri (document_uri editor) then
      found <- getPreviewOf (document_uri editor) ;;
      ret (negb (bool_decide (is_Some found)))
    else ret false
  else ret false.

Definition logAutoOpenPreviewEvent : M unit :=
  modify (emit (SendTelemetryEvent TELEMETRY_EVENT_SHOW_PREVIEW_TO_SIDE
                                   [("autoOpen", "yes")])).

(** The end of [showPreview], once [preview] is known. *)
Definition showPreview_finish (preview : Preview) (uri : Uri) : M unit :=
  Preview_update preview (Some uri) ;;
  w <- get ;;
  Panel_reveal preview (viewColumn_of w preview).

(** [showPreview] up to its [await]: a preview found on the target column
    is updated and revealed at once; otherwise [Preview.create] is called
    and the method is suspended ([None]). *)
Definition showPreview (uri : Uri) (viewColumn : Z) : M (option Preview) :=
  found <- getPreviewOnTargetColumn viewColumn ;;
  match found with
  | Some preview => showPreview_finish preview uri ;; ret (Some preview)
  | None => modify (emit (PreviewCreate uri viewColumn)) ;; ret None
  end.

(** [Preview.create] has resolved with the new object [preview]: the rest
    of [createPreview], then the rest of [showPreview]. *)
Definition createPreview_resolved
    (preview : Preview) (obj : PreviewObject) : M unit :=
  modify (fun w => with_objects (<[preview := obj]> (objects w)) w) ;;
  registerPreview preview.

Definition showPreview_resolved
    (preview : Preview) (obj : PreviewObject) (uri : Uri) : M unit :=
  createPreview_resolved preview obj ;;
  showPreview_finish preview uri.

(** A whole call of [showPreview] with nothing interleaved at the [await]:
    [created] is what [Preview.create] resolves with if it is called.  The
    result is the preview the call operated on. *)
Definition showPreview_awaited
    (created : Preview * PreviewObject) (uri : Uri) (viewColumn : Z)
    : M Preview :=
  found <- showPreview uri viewColumn ;;
  match found with
  | Some preview => ret preview
  | None =>
      showPreview_resolved (fst created) (snd created) uri ;;
      ret (fst created)
  end.

(** [this._activePreview!.source]: the [!] is erased by the compiler, and
    reading a property of [undefined] throws. *)
Definition showSource : M unit :=
  w <- get ;;
  match _activePreview w with
  | Some a => modify (emit (OpenTextDocument (source_of w a)))
  | None => throw TypeError
  end.

(** [Preview.revive] has resolved with [preview]: the rest of
    [deserializeWebviewPanel]. *)
Definition deserializeWebviewPanel_resolved
    (preview : Preview) (obj : PreviewObject) : M unit :=
  modify (fun w => with_objects (<[preview := obj]> (objects w)) w) ;;
  registerPreview preview ;;
  Preview_update preview None.

Definition onDidChangeActiveTextEditor (editor : option TextEditor) : M unit :=
  match editor with
  | None => ret tt
  | Some editor =>
      (if isSvgUri (document_uri editor)
       then isActive <- isActivePreviewUri (document_uri editor) ;;
            if negb isActive
            then w <- get ;;
                 forEach (fun preview =>
                            Preview_update preview
                                           (Some (document_uri editor)))
                         (_previews w)
            else ret tt
       else ret tt) ;;
      should <- shouldAutoOpenPreviewForEditor editor ;;
      if should
      then logAutoOpenPreviewEvent ;;
           showPreview (document_uri editor) ViewColumn.Beside ;;
           ret tt
      else ret tt
  end.

Definition onDidChangeTextDocument (document_uri : Uri) : M unit :=
  found <- getPreviewOf document_uri ;;
  match found with
  | Some preview => Preview_update preview None
  | None => ret tt
  end.

(** The constructor: the field initialisers, the two subscriptions (their
    handlers run as events), and the check for an automatic preview. *)
Definition constructor : M unit :=
  modify (with_previews []) ;;
  modify (with_activePreview None) ;;
  w <- get ;;
  match activeTextEditor w with
  | Some editor =>
      should <- shouldAutoOpenPreviewForEditor editor ;;
      if should
      then logAutoOpenPreviewEvent ;;
           showPreview (document_uri editor) ViewColumn.Beside ;;
           ret tt
      else ret tt
  | None => ret tt
  end.

(** ** The event loop *)

Definition handler (ev : Event) : M unit :=
  match ev with
  | Call_showPreview uri viewColumn => showPreview uri viewColumn ;; ret tt
  | Resolve_create preview obj uri => showPreview_resolved preview obj uri
  | Call_showSource => showSource
  | Resolve_revive preview obj => deserializeWebviewPanel_resolved preview obj
  | Fire_onDispose preview => onDispose_callback preview
  | Fire_onDidChangeViewState preview a =>
      onDidChangeViewState_callback preview a
  | Fire_onDidChangeTextDocument uri => onDidChangeTextDocument uri
  | Fire_onDidChangeActiveTextEditor editor =>
      onDidChangeActiveTextEditor editor
  | Host_activeTextEditor editor => modify (with_activeTextEditor editor)
  | Host_configuration b => modify (with_autoOpen b)
  | Host_movePanel preview viewColumn =>
      modify (fun w =>
        with_objects
          (alter (fun o => mkPreview (source o) viewColumn) preview
                 (objects w)) w)
  end.

(** A handler that throws leaves the fields as they are at the throw. *)
Definition step (w : World) (ev : Event) : World := exec (handler ev) w.

Definition run (w : World) (trace : list Event) : World :=
  fold_left step trace w.

(** The host when the extension is activated: no context key is set, no
    preview object exists. *)
Definition host (editor : option TextEditor) (isAutoOpen : bool) : World :=
  mkWorld [] None ∅ ∅ editor isAutoOpen [].

Definition initial (editor : option TextEditor) (isAutoOpen : bool) : World :=
  exec constructor (host editor isAutoOpen).

(** The focus flag as the host reads it: an unset key is not true. *)
Definition focusFlag (w : World) : bool :=
  bool_decide (contextKeys w !! svgPreviewFocusContextKey = Some true).

(** ** Vocabulary of the properties *)

(** The part of the world the focus and tracking claims are about. *)
Definition tracked (w : World)
    : list Preview * option Preview * gmap string bool :=
  (_previews w, _activePreview w, contextKeys w).

Definition frames {A} (m : M A) : Prop :=
  forall w, tracked (exec m w) = tracked w.

(** The calls a run of [m] adds to the log. *)
Definition calls {A} (m : M A) (w : World) : list Effect :=
  drop (length (log w)) (log (exec m w)).

(** [m] only adds to the log. *)
Definition appends {A} (m : M A) : Prop :=
  forall w, exists rest, log (exec m w) = log w ++ rest.

(** The focus flag agrees with the focus pointer. *)
Definition focus_consistent (w : World) : Prop :=
  focusFlag w = true <-> is_Some (_activePreview w).

(** No dangling focus. *)
Definition focus_tracked (w : World) : Prop :=
  forall p, _activePreview w = Some p -> p ∈ _previews w.

(** [l] without the first occurrence of [p]. *)
Fixpoint remove_first (p : Preview) (l : list Preview) : list Preview :=
  match l with
  | [] => []
  | y :: t => if Nat.eqb y p then t else y :: remove_first p t
  end.

(** A preview is live from a registration to its next disposal; [live]
    lists the live previews, once per registration.  A trace follows the
    lifecycle when only live previews are disposed or gain focus. *)
Fixpoint lifecycle (live : list Preview) (trace : list Event) : bool :=
  match trace with
  | [] => true
  | ev :: rest =>
      match ev with
      | Resolve_create p _ _ | Resolve_revive p _ =>
          lifecycle (live ++ [p]) rest
      | Fire_onDispose p =>
          bool_decide (p ∈ live) && lifecycle (remove_first p live) rest
      | Fire_onDidChangeViewState p true =>
          bool_decide (p ∈ live) && lifecycle live rest
      | _ => lifecycle live rest
      end
  end.

(** The test the two [find] callbacks of [getPreviewOnTargetColumn] make on
    a panel column [c]. *)
Definition on_target (w : World) (viewColumn : Z) (c : Column) : bool :=
  if viewColumn =? ViewColumn.Active
  then strict_eq c (activeViewColumn w)
  else strict_eq_number c (plus_one (activeViewColumn w)).

(** The spec's reading of the target column.  The active column is the
    active editor's; with no active editor the code takes the token
    [Active] itself for it.  A panel column [c] is on the target when it is
    the active column for the token [Active], and one more than the active
    column for any other token; an editor without a column matches only
    panels without one, and only for [Active]. *)
Definition occupies_target (w : World) (viewColumn : Z) (c : Column) : Prop :=
  match activeViewColumn w with
  | Some a =>
      c = Some (if viewColumn =? ViewColumn.Active then a else a + 1)
  | None => viewColumn = ViewColumn.Active /\ c = None
  end.

(** The manager's own fields as the constructor initialises them. *)
Definition initialised (w : World) : World :=
  with_activePreview None (with_previews [] w).

(** The focus machine: what an event makes of the focus pointer [a]. *)
Definition focus_after (a : option Preview) (ev : Event) : option Preview :=
  match ev with
  | Resolve_create p _ _ | Resolve_revive p _ => Some p
  | Fire_onDispose _ => None
  | Fire_onDidChangeViewState p true => Some p
  | Fire_onDidChangeViewState _ false => None
  | _ => a
  end.

(** The previews a trace registers, in order. *)
Fixpoint registered (trace : list Event) : list Preview :=
  match trace with
  | [] => []
  | Resolve_create p _ _ :: rest | Resolve_revive p _ :: rest =>
      p :: registered rest
  | _ :: rest => registered rest
  end.

(** The live previews after an event, see [lifecycle]. *)
Definition live_after (live : list Preview) (ev : Event) : list Preview :=
  match ev with
  | Resolve_create p _ _ | Resolve_revive p _ => live ++ [p]
  | Fire_onDispose p => remove_first p live
  | _ => live
  end.

(** The events that run [registerPreview] or one of the two callbacks it
    subscribes. *)
Definition of_registration (ev : Event) : bool :=
  match ev with
  | Resolve_create _ _ _ | Resolve_revive _ _
  | Fire_onDispose _ | Fire_onDidChangeViewState _ _ => true
  | _ => false
  end.

(** A panel column of the editor area: the host numbers them from one. *)
Definition editor_column (c : Column) : Prop :=
  match c with
  | Some z => 1 <= z
  | None => True
  end.

(** ** Arrays *)

Lemma indexOf_from_notin (x : Preview) (l : list Preview) (i : Z) :
  x ∉ l -> indexOf_from x l i = -1.
Proof.
  revert i; induction l as [|y t IH]; intros i Hx; simpl; [reflexivity|].
  apply not_elem_of_cons in Hx as [Hxy Ht].
  destruct (Nat.eqb_spec y x) as [->|_]; [contradiction|].
  apply IH; exact Ht.
Qed.

Lemma indexOf_from_in (x : Preview) (l : list Preview) (i : Z) :
  x ∈ l ->
  exists l1 l2, l = l1 ++ x :: l2 /\ (x ∉ l1)
                /\ indexOf_from x l i = i + Z.of_nat (length l1).
Proof.
  revert i; induction l as [|y t IH]; intros i Hx; [inversion Hx|].
  simpl. destruct (Nat.eqb_spec y x) as [->|Hne].
  - exists [], t. repeat split; [apply not_elem_of_nil | simpl; lia].
  - apply elem_of_cons in Hx as [->|Ht]; [contradiction|].
    destruct (IH (i + 1) Ht) as (l1 & l2 & -> & Hl1 & Hi).
    exists (y :: l1), l2. repeat split.
    + apply not_elem_of_cons; split; [congruence | exact Hl1].
    + rewrite Hi. simpl length. lia.
Qed.

Lemma splice_at {A} (l1 : list A) (x : A) (l2 : list A) :
  splice (Z.of_nat (length l1)) 1 (l1 ++ x :: l2) = l1 ++ l2.
Proof.
  unfold splice. rewrite length_app. simpl length.
  destruct (Z.ltb_spec (Z.of_nat (length l1)) 0) as [H|_]; [lia|].
  rewrite Z.min_l by lia.
  replace (Z.min (Z.max 1 0) _) with 1 by lia.
  rewrite Nat2Z.id.
  replace (Z.to_nat (Z.of_nat (length l1) + 1)) with (S (length l1)) by lia.
  rewrite take_app_length.
  f_equal.
  change (x :: l2) with ([x] ++ l2). rewrite app_assoc.
  rewrite drop_app_length'; [reflexivity|].
  rewrite length_app. simpl. lia.
Qed.

Lemma splice_indexOf_in (x : Preview) (l : list Preview) :
  x ∈ l ->
  exists l1 l2, l = l1 ++ x :: l2 /\ (x ∉ l1)
                /\ splice (indexOf x l) 1 l = l1 ++ l2.
Proof.
  intros Hx. destruct (indexOf_from_in x l 0 Hx) as (l1 & l2 & -> & Hl1 & Hi).
  exists l1, l2. repeat split; [exact Hl1|].
  unfold indexOf. rewrite Hi, Z.add_0_l. apply splice_at.
Qed.

(** The missed case of [splice(indexOf(x), 1)]: for an absent [x] the start
    is [-1], and the LAST element is removed. *)
Lemma splice_indexOf_notin (x : Preview) (l : list Preview) :
  x ∉ l -> splice (indexOf x l) 1 l = take (length l - 1) l.
Proof.
  intros Hx. unfold indexOf. rewrite (indexOf_from_notin x l 0 Hx).
  unfold splice. change (-1 <? 0) with true. cbv iota.
  destruct l as [|y t]; [reflexivity|].
  cbn [length].
  replace (Z.max (Z.of_nat (S (length t)) + -1) 0)
    with (Z.of_nat (length t)) by lia.
  replace (Z.min (Z.max 1 0) _) with 1 by lia.
  replace (Z.to_nat (Z.of_nat (length t) + 1)) with (length (y :: t))
    by (cbn [length]; lia).
  rewrite drop_all, app_nil_r, Nat2Z.id. f_equal. lia.
Qed.

(** ** Frames: what an action leaves alone *)

Lemma frames_ret {A} (a : A) : frames (ret a).
Proof. intros w; reflexivity. Qed.

Lemma frames_throw {A} (e : JsError) : frames (@throw A e).
Proof. intros w; reflexivity. Qed.

Lemma frames_get : frames get.
Proof. intros w; reflexivity. Qed.

Lemma frames_bind {A B} (m : M A) (k : A -> M B) :
  frames m -> (forall a, frames (k a)) -> frames (bind m k).
Proof.
  intros Hm Hk w. unfold exec, bind.
  specialize (Hm w). unfold exec in Hm.
  destruct (m w) as [[a|e] w1]; simpl in *; [|exact Hm].
  rewrite <- Hm. apply Hk.
Qed.

Lemma frames_emit (e : Effect) : frames (modify (emit e)).
Proof. intros w; reflexivity. Qed.

Lemma frames_Preview_update (p : Preview) (uri : option Uri) :
  frames (Preview_update p uri).
Proof. intros w; destruct uri; reflexivity. Qed.

Lemma frames_Panel_reveal (p : Preview) (c : Column) :
  frames (Panel_reveal p c).
Proof. intros w; reflexivity. Qed.

Lemma frames_forEach {A} (f : A -> M unit) (l : list A) :
  (forall x, frames (f x)) -> frames (forEach f l).
Proof.
  intros Hf. induction l as [|x t IH]; simpl.
  - apply frames_ret.
  - apply frames_bind; [apply Hf | intros _; exact IH].
Qed.

Lemma frames_with_objects (f : World -> gmap Preview PreviewObject) :
  frames (modify (fun w => with_objects (f w) w)).
Proof. intros w; reflexivity. Qed.

Lemma frames_with_activeTextEditor (e : option TextEditor) :
  frames (modify (with_activeTextEditor e)).
Proof. intros w; reflexivity. Qed.

Lemma frames_with_autoOpen (b : bool) : frames (modify (with_autoOpen b)).
Proof. intros w; reflexivity. Qed.

Create HintDb frames discriminated.
Hint Resolve frames_ret frames_throw frames_get frames_emit
  frames_Preview_update frames_Panel_reveal frames_with_objects
  frames_with_activeTextEditor frames_with_autoOpen : frames.

(** One step of a frame proof: follow the shape of the action. *)
Ltac frames_step :=
  match goal with
  | |- frames (bind _ _) => apply frames_bind; [|intros ?]
  | |- frames (forEach _ _) => apply frames_forEach; intros ?
  | |- frames (match ?x with _ => _ end) => destruct x
  | |- frames _ => solve [auto with frames]
  end.

Ltac frames_auto := repeat frames_step.

Lemma frames_getPreviewOnTargetColumn (viewColumn : Z) :
  frames (getPreviewOnTargetColumn viewColumn).
Proof. unfold getPreviewOnTargetColumn. frames_auto. Qed.

Lemma frames_getPreviewOf (resource : Uri) : frames (getPreviewOf resource).
Proof. unfold getPreviewOf. frames_auto. Qed.

Lemma frames_isActivePreviewUri (uri : Uri) : frames (isActivePreviewUri uri).
Proof. unfold isActivePreviewUri. frames_auto. Qed.

Hint Resolve frames_getPreviewOnTargetColumn frames_getPreviewOf
  frames_isActivePreviewUri : frames.

Lemma frames_shouldAutoOpenPreviewForEditor (editor : TextEditor) :
  frames (shouldAutoOpenPreviewForEditor editor).
Proof. unfold shouldAutoOpenPreviewForEditor. frames_auto. Qed.

Lemma frames_showPreview_finish (preview : Preview) (uri : Uri) :
  frames (showPreview_finish preview uri).
Proof. unfold showPreview_finish. frames_auto. Qed.

Hint Resolve frames_shouldAutoOpenPreviewForEditor
  frames_showPreview_finish : frames.

Lemma frames_showPreview (uri : Uri) (viewColumn : Z) :
  frames (showPreview uri viewColumn).
Proof. unfold showPreview. frames_auto. Qed.

Lemma frames_logAutoOpenPreviewEvent : frames logAutoOpenPreviewEvent.
Proof. unfold logAutoOpenPreviewEvent. frames_auto. Qed.

Hint Resolve frames_showPreview frames_logAutoOpenPreviewEvent : frames.

Lemma frames_showSource : frames showSource.
Proof. unfold showSource. frames_auto. Qed.

Lemma frames_onDidChangeTextDocument (uri : Uri) :
  frames (onDidChangeTextDocument uri).
Proof. unfold onDidChangeTextDocument. frames_auto. Qed.

Lemma frames_onDidChangeActiveTextEditor (editor : option TextEditor) :
  frames (onDidChangeActiveTextEditor editor).
Proof. unfold onDidChangeActiveTextEditor. frames_auto. Qed.

(** ** Focus transitions *)

Lemma exec_bind_modify {B} (f : World -> World) (k : M B) (w : World) :
  exec (modify f ;; k) w = exec k (f w).
Proof. reflexivity. Qed.

Lemma tracked_onPreviewFocus (p : Preview) (w : World) :
  tracked (exec (onPreviewFocus p) w)
  = (_previews w, Some p,
     <[svgPreviewFocusContextKey := true]> (contextKeys w)).
Proof. reflexivity. Qed.

Lemma tracked_onPreviewBlur (w : World) :
  tracked (exec onPreviewBlur w)
  = (_previews w, None,
     <[svgPreviewFocusContextKey := false]> (contextKeys w)).
Proof. reflexivity. Qed.

Lemma tracked_onDispose_callback (p : Preview) (w : World) :
  tracked (exec (onDispose_callback p) w)
  = (splice (indexOf p (_previews w)) 1 (_previews w), None,
     <[svgPreviewFocusContextKey := false]> (contextKeys w)).
Proof. reflexivity. Qed.

Lemma tracked_showPreview_resolved
    (p : Preview) (obj : PreviewObject) (uri : Uri) (w : World) :
  tracked (exec (showPreview_resolved p obj uri) w)
  = (_previews w ++ [p], Some p,
     <[svgPreviewFocusContextKey := true]> (contextKeys w)).
Proof. reflexivity. Qed.

Lemma tracked_deserializeWebviewPanel_resolved
    (p : Preview) (obj : PreviewObject) (w : World) :
  tracked (exec (deserializeWebviewPanel_resolved p obj) w)
  = (_previews w ++ [p], Some p,
     <[svgPreviewFocusContextKey := true]> (contextKeys w)).
Proof. reflexivity. Qed.

Lemma tracked_constructor (w : World) :
  tracked (exec constructor w) = ([], None, contextKeys w).
Proof.
  unfold constructor. rewrite !exec_bind_modify.
  match goal with
  | |- tracked (exec ?m ?w0) = _ =>
      assert (Hf : frames m) by frames_auto; rewrite (Hf w0)
  end.
  reflexivity.
Qed.

Lemma focus_consistent_tracked (w w' : World) :
  tracked w' = tracked w -> focus_consistent w -> focus_consistent w'.
Proof.
  unfold tracked, focus_consistent, focusFlag.
  intros [= Hp Ha Hc]. rewrite Ha, Hc. tauto.
Qed.

Lemma focus_consistent_set (w : World) (a : option Preview) (b : bool) :
  _activePreview w = a ->
  contextKeys w !! svgPreviewFocusContextKey = Some b ->
  b = bool_decide (is_Some a) ->
  focus_consistent w.
Proof.
  unfold focus_consistent, focusFlag. intros -> -> ->.
  rewrite bool_decide_eq_true. destruct a as [p|]; split.
  - intros _. eexists; reflexivity.
  - intros _. rewrite bool_decide_true; [reflexivity | eexists; reflexivity].
  - rewrite bool_decide_false; [discriminate | apply is_Some_None].
  - intros H. destruct (is_Some_None H).
Qed.

Lemma focus_consistent_step (w : World) (ev : Event) :
  focus_consistent w -> focus_consistent (step w ev).
Proof.
  intros Hw. unfold step.
  destruct ev as [uri c|p obj uri| |p obj|p|p a|uri|ed|ed|b|p c]; simpl handler.
  - apply (focus_consistent_tracked w); [|exact Hw].
    assert (Hf : frames (showPreview uri c ;; ret tt)) by frames_auto.
    apply Hf.
  - apply (focus_consistent_set _ (Some p) true);
      [reflexivity | simpl; apply lookup_insert_eq | reflexivity].
  - apply (focus_consistent_tracked w); [apply frames_showSource | exact Hw].
  - apply (focus_consistent_set _ (Some p) true);
      [reflexivity | simpl; apply lookup_insert_eq | reflexivity].
  - apply (focus_consistent_set _ None false);
      [reflexivity | simpl; apply lookup_insert_eq | reflexivity].
  - destruct a.
    + apply (focus_consistent_set _ (Some p) true);
        [reflexivity | simpl; apply lookup_insert_eq | reflexivity].
    + apply (focus_consistent_set _ None false);
        [reflexivity | simpl; apply lookup_insert_eq | reflexivity].
  - apply (focus_consistent_tracked w);
      [apply frames_onDidChangeTextDocument | exact Hw].
  - apply (focus_consistent_tracked w);
      [apply frames_onDidChangeActiveTextEditor | exact Hw].
  - apply (focus_consistent_tracked w); [reflexivity | exact Hw].
  - apply (focus_consistent_tracked w); [reflexivity | exact Hw].
  - apply (focus_consistent_tracked w); [reflexivity | exact Hw].
Qed.

Lemma focus_consistent_run (trace : list Event) (w : World) :
  focus_consistent w -> focus_consistent (run w trace).
Proof.
  revert w. induction trace as [|ev rest IH]; intros w Hw; simpl.
  - exact Hw.
  - apply IH, focus_consistent_step, Hw.
Qed.

Lemma focus_consistent_initial (editor : option TextEditor) (b : bool) :
  focus_consistent (initial editor b).
Proof.
  unfold focus_consistent, focusFlag, initial.
  pose proof (tracked_constructor (host editor b)) as H.
  unfold tracked in H. injection H as _ Ha Hc. rewrite Ha, Hc.
  simpl. rewrite lookup_empty. rewrite bool_decide_false by discriminate.
  split; [discriminate | intros H; destruct (is_Some_None H)].
Qed.

(** ** Focus and disposal *)

(** C3: in every state the manager reaches from its construction, through
    any sequence of handler runs and host changes, the focus flag published
    under [svgPreviewFocus] is true if and only if [_activePreview] is
    set. *)
Theorem focusFlag_iff_activePreview
    (editor : option TextEditor) (isAutoOpen : bool) (trace : list Event) :
  let w := run (initial editor isAutoOpen) trace in
  focusFlag w = true <-> is_Some (_activePreview w).
Proof.
  apply focus_consistent_run, focus_consistent_initial.
Qed.

(** C1, as the code has it: the disposal callback of any preview, focused
    or not, completes normally with [_activePreview] unset and the focus
    flag false; it does not look at which preview held the focus. *)
Theorem onDispose_clears_focus_always (p : Preview) (w : World) :
  let w' := step w (Fire_onDispose p) in
  result (onDispose_callback p) w = Normal tt
  /\ _activePreview w' = None
  /\ focusFlag w' = false.
Proof.
  repeat split.
  unfold focusFlag; simpl. rewrite lookup_insert_eq.
  apply bool_decide_false. discriminate.
Qed.

(** A second run of the disposal callback, for a preview that is no longer
    tracked, completes normally and removes the last tracked preview. *)
Lemma onDispose_absent_removes_last (p : Preview) (w : World) :
  p ∉ _previews w ->
  result (onDispose_callback p) w = Normal tt
  /\ _previews (step w (Fire_onDispose p))
     = take (length (_previews w) - 1) (_previews w).
Proof.
  intros Hp. split; [reflexivity|].
  change (_previews (step w (Fire_onDispose p)))
    with (splice (indexOf p (_previews w)) 1 (_previews w)).
  apply splice_indexOf_notin, Hp.
Qed.

(** ** The lifecycle of previews in a trace *)

Lemma remove_first_app (p : Preview) (l1 l2 : list Preview) :
  p ∉ l1 -> remove_first p (l1 ++ p :: l2) = l1 ++ l2.
Proof.
  induction l1 as [|y t IH]; intros Hp; simpl.
  - rewrite Nat.eqb_refl. reflexivity.
  - apply not_elem_of_cons in Hp as [Hne Ht].
    destruct (Nat.eqb_spec y p) as [->|_]; [contradiction|].
    rewrite IH by exact Ht. reflexivity.
Qed.

Lemma splice_indexOf_remove_first (p : Preview) (l : list Preview) :
  p ∈ l -> splice (indexOf p l) 1 l = remove_first p l.
Proof.
  intros Hp. destruct (splice_indexOf_in p l Hp) as (l1 & l2 & -> & Hl1 & ->).
  symmetry. apply remove_first_app, Hl1.
Qed.

Lemma focus_tracked_frames (w w' : World) :
  tracked w' = tracked w -> focus_tracked w -> focus_tracked w'.
Proof.
  unfold tracked, focus_tracked. intros [= Hp Ha Hc]. rewrite Hp, Ha. auto.
Qed.

Lemma tracked_previews (w w' : World) :
  tracked w' = tracked w -> _previews w' = _previews w.
Proof. intros H. exact (f_equal (fun t => fst (fst t)) H). Qed.

Lemma step_frames_previews (w : World) (ev : Event) :
  match ev with
  | Resolve_create _ _ _ | Resolve_revive _ _
  | Fire_onDispose _ | Fire_onDidChangeViewState _ _ => True
  | _ => tracked (step w ev) = tracked w
  end.
Proof.
  destruct ev as [uri c|p obj uri| |p obj|p|p a|uri|ed|ed|b|p c];
    try exact I; unfold step; simpl handler; try reflexivity.
  - assert (Hf : frames (showPreview uri c ;; ret tt)) by frames_auto.
    apply Hf.
  - apply frames_showSource.
  - apply frames_onDidChangeTextDocument.
  - apply frames_onDidChangeActiveTextEditor.
Qed.

Lemma lifecycle_run (trace : list Event) (w : World) (live : list Preview) :
  _previews w = live ->
  focus_tracked w ->
  lifecycle live trace = true ->
  focus_tracked (run w trace).
Proof.
  revert w live. induction trace as [|ev rest IH]; intros w live Hl Hw Hlc.
  - exact Hw.
  - simpl run. pose proof (step_frames_previews w ev) as Hfr.
    destruct ev as [uri c|p obj uri| |p obj|p|p a|uri|ed|ed|b|p c];
      simpl in Hlc;
      try (apply (IH _ live);
           [ rewrite (tracked_previews _ _ Hfr); exact Hl
           | apply (focus_tracked_frames w); assumption
           | exact Hlc ]).
    + apply (IH _ (live ++ [p])); [simpl; rewrite Hl; reflexivity | | exact Hlc].
      intros q [= <-]. simpl. apply elem_of_app. right. apply list_elem_of_singleton.
      reflexivity.
    + apply (IH _ (live ++ [p])); [simpl; rewrite Hl; reflexivity | | exact Hlc].
      intros q [= <-]. simpl. apply elem_of_app. right. apply list_elem_of_singleton.
      reflexivity.
    + apply andb_prop in Hlc as [Hin Hlc].
      apply bool_decide_eq_true in Hin.
      apply (IH _ (remove_first p live)); [ | intros q [=] | exact Hlc].
      change (_previews (step w (Fire_onDispose p)))
        with (splice (indexOf p (_previews w)) 1 (_previews w)).
      rewrite Hl. apply splice_indexOf_remove_first, Hin.
    + destruct a.
      * apply andb_prop in Hlc as [Hin Hlc].
        apply bool_decide_eq_true in Hin.
        apply (IH _ live); [exact Hl | | exact Hlc].
        intros q [= <-]. simpl. rewrite Hl. exact Hin.
      * apply (IH _ live); [exact Hl | intros q [=] | exact Hlc].
Qed.

(** C2, as the code has it: along every trace that follows the lifecycle
    (only a live preview is disposed, only a live preview gains focus),
    [_activePreview], when set, is an element of [_previews]. *)
Theorem activePreview_is_tracked
    (editor : option TextEditor) (isAutoOpen : bool) (trace : list Event) :
  lifecycle [] trace = true ->
  forall p : Preview,
    _activePreview (run (initial editor isAutoOpen) trace) = Some p ->
    p ∈ _previews (run (initial editor isAutoOpen) trace).
Proof.
  intros Hlc. apply (lifecycle_run trace _ []); [ | | exact Hlc].
  - pose proof (tracked_constructor (host editor isAutoOpen)) as H.
    injection H as Hp _ _. exact Hp.
  - pose proof (tracked_constructor (host editor isAutoOpen)) as H.
    injection H as _ Ha _. intros p Hp. unfold initial in Hp.
    rewrite Ha in Hp. discriminate.
Qed.

(** ** Lookup on the target column *)

Lemma find_first {A} (f : A -> bool) (l : list A) (x : A) :
  find f l = Some x ->
  exists l1 l2, l = l1 ++ x :: l2 /\ f x = true
                /\ (forall y, y ∈ l1 -> f y = false).
Proof.
  induction l as [|y t IH]; simpl; [discriminate|].
  destruct (f y) eqn:Hy.
  - intros [= <-]. exists [], t. repeat split; [exact Hy|].
    intros z Hz. inversion Hz.
  - intros Hf. destruct (IH Hf) as (l1 & l2 & -> & Hx & Hl1).
    exists (y :: l1), l2. repeat split; [exact Hx|].
    intros z Hz. apply elem_of_cons in Hz as [->|Hz]; auto.
Qed.

Lemma find_absent {A} (f : A -> bool) (l : list A) :
  find f l = None -> forall y, y ∈ l -> f y = false.
Proof.
  induction l as [|x t IH]; simpl; intros Hf y Hy; [inversion Hy|].
  destruct (f x) eqn:Hx; [discriminate|].
  apply elem_of_cons in Hy as [->|Hy]; auto.
Qed.

Lemma find_first_of {A} (f : A -> bool) (l1 l2 : list A) (x : A) :
  f x = true -> (forall y, y ∈ l1 -> f y = false) ->
  find f (l1 ++ x :: l2) = Some x.
Proof.
  intros Hx. induction l1 as [|y t IH]; intros Hl1; simpl.
  - rewrite Hx. reflexivity.
  - rewrite (Hl1 y) by apply list_elem_of_here.
    apply IH. intros z Hz. apply Hl1, list_elem_of_further, Hz.
Qed.

Lemma find_ext_in {A} (f g : A -> bool) (l : list A) :
  (forall y, y ∈ l -> f y = g y) -> find f l = find g l.
Proof.
  induction l as [|x t IH]; intros H; simpl; [reflexivity|].
  rewrite <- (H x) by apply list_elem_of_here.
  destruct (f x); [reflexivity|].
  apply IH. intros y Hy. apply H, list_elem_of_further, Hy.
Qed.

Lemma on_target_spec (w : World) (viewColumn : Z) (c : Column) :
  on_target w viewColumn c = true <-> occupies_target w viewColumn c.
Proof.
  unfold on_target, occupies_target.
  destruct (Z.eqb_spec viewColumn ViewColumn.Active) as [Hv|Hv];
    destruct (activeViewColumn w) as [a|], c as [z|]; simpl;
    rewrite ?Z.eqb_eq; split;
    try discriminate; try tauto; try congruence;
    try (intros [? ?]; congruence).
Qed.

Lemma on_target_false (w : World) (viewColumn : Z) (c : Column) :
  on_target w viewColumn c = false <-> ~ occupies_target w viewColumn c.
Proof.
  rewrite <- on_target_spec. destruct (on_target w viewColumn c); split;
    congruence.
Qed.

Lemma getPreviewOnTargetColumn_eq (viewColumn : Z) (w : World) :
  getPreviewOnTargetColumn viewColumn w
  = (Normal (find (fun p => on_target w viewColumn (viewColumn_of w p))
                  (_previews w)), w).
Proof.
  unfold getPreviewOnTargetColumn, on_target, bind, get, ret.
  destruct (viewColumn =? ViewColumn.Active); reflexivity.
Qed.

(** The lookup returns the first tracked preview on the target column, in
    registration order, and nothing when no tracked preview is on it. *)
Lemma getPreviewOnTargetColumn_first (viewColumn : Z) (w : World) :
  match result (getPreviewOnTargetColumn viewColumn) w with
  | Normal (Some p) =>
      exists l1 l2,
        _previews w = l1 ++ p :: l2
        /\ occupies_target w viewColumn (viewColumn_of w p)
        /\ (forall q, q ∈ l1 ->
              ~ occupies_target w viewColumn (viewColumn_of w q))
  | Normal None =>
      forall q, q ∈ _previews w ->
        ~ occupies_target w viewColumn (viewColumn_of w q)
  | Throw _ => False
  end.
Proof.
  unfold result. rewrite getPreviewOnTargetColumn_eq. simpl.
  destruct (find _ (_previews w)) as [p|] eqn:Hf.
  - destruct (find_first _ _ _ Hf) as (l1 & l2 & Hl & Hp & Hl1).
    exists l1, l2. split; [exact Hl|]. split.
    + apply on_target_spec, Hp.
    + intros q Hq. apply on_target_false, Hl1, Hq.
  - intros q Hq. apply on_target_false.
    apply (find_absent _ _ Hf q Hq).
Qed.

(** ** showPreview *)

Lemma showPreview_awaited_found
    (created : Preview * PreviewObject) (uri : Uri) (viewColumn : Z)
    (w : World) (p : Preview) :
  result (getPreviewOnTargetColumn viewColumn) w = Normal (Some p) ->
  showPreview_awaited created uri viewColumn w
  = (Normal p, exec (showPreview_finish p uri) w).
Proof.
  unfold result. rewrite getPreviewOnTargetColumn_eq. simpl. intros [= Hf].
  unfold showPreview_awaited, showPreview, bind.
  rewrite getPreviewOnTargetColumn_eq, Hf. reflexivity.
Qed.

Lemma showPreview_awaited_created
    (created : Preview * PreviewObject) (uri : Uri) (viewColumn : Z)
    (w : World) :
  result (getPreviewOnTargetColumn viewColumn) w = Normal None ->
  showPreview_awaited created uri viewColumn w
  = (Normal (fst created),
     exec (showPreview_resolved (fst created) (snd created) uri)
          (emit (PreviewCreate uri viewColumn) w)).
Proof.
  unfold result. rewrite getPreviewOnTargetColumn_eq. simpl. intros [= Hf].
  unfold showPreview_awaited, showPreview, bind.
  rewrite getPreviewOnTargetColumn_eq, Hf. reflexivity.
Qed.

Lemma find_app_last {A} (f : A -> bool) (l : list A) (x : A) :
  f x = true -> (forall y, y ∈ l -> f y = true -> y = x) ->
  find f (l ++ [x]) = Some x.
Proof.
  intros Hx. induction l as [|y t IH]; intros Hl; simpl.
  - rewrite Hx. reflexivity.
  - destruct (f y) eqn:Hy.
    + f_equal. apply Hl; [apply list_elem_of_here | exact Hy].
    + apply IH. intros z Hz. apply Hl, list_elem_of_further, Hz.
Qed.

(** [update(uri)] changes the source of a preview and no panel column. *)
Lemma viewColumn_of_update (w w' : World) (u : Uri) (p q : Preview) :
  objects w'
  = alter (fun o => mkPreview u (panel_viewColumn o)) p (objects w) ->
  viewColumn_of w' q = viewColumn_of w q.
Proof.
  unfold viewColumn_of, object_of. intros ->.
  destruct (decide (p = q)) as [->|Hne].
  - rewrite lookup_alter_eq. destruct (objects w !! q); reflexivity.
  - rewrite lookup_alter_ne by exact Hne. reflexivity.
Qed.

Lemma showPreview_finish_eq (p : Preview) (uri : Uri) (w : World) :
  showPreview_finish p uri w
  = (Normal tt,
     mkWorld (_previews w) (_activePreview w)
       (alter (fun o => mkPreview uri (panel_viewColumn o)) p (objects w))
       (contextKeys w) (activeTextEditor w) (autoOpen w)
       (log w ++ [PreviewUpdate p (Some uri);
                  PanelReveal p (viewColumn_of w p)])).
Proof.
  unfold showPreview_finish, Preview_update, Panel_reveal, bind, modify, get,
    emit, with_objects. simpl.
  rewrite <- app_assoc. simpl.
  rewrite (viewColumn_of_update w _ uri p p) by reflexivity.
  reflexivity.
Qed.

Lemma showPreview_resolved_eq
    (p : Preview) (obj : PreviewObject) (uri : Uri) (w : World) :
  showPreview_resolved p obj uri w
  = (Normal tt,
     mkWorld (_previews w ++ [p]) (Some p)
       (alter (fun o => mkPreview uri (panel_viewColumn o)) p
              (<[p := obj]> (objects w)))
       (<[svgPreviewFocusContextKey := true]> (contextKeys w))
       (activeTextEditor w) (autoOpen w)
       (log w ++ [SetContext svgPreviewFocusContextKey true;
                  PreviewUpdate p (Some uri);
                  PanelReveal p (panel_viewColumn obj)])).
Proof.
  unfold showPreview_resolved, createPreview_resolved, registerPreview,
    onPreviewFocus, setSvgPreviewFocusContext.
  unfold bind at 1. unfold bind at 1. simpl.
  rewrite showPreview_finish_eq. simpl.
  rewrite <- app_assoc. simpl.
  unfold viewColumn_of, object_of. simpl. rewrite lookup_insert_eq.
  reflexivity.
Qed.

(** A second lookup after a call that found [p] finds [p] again. *)
Lemma lookup_again_found (p : Preview) (uri : Uri) (viewColumn : Z) (w : World) :
  result (getPreviewOnTargetColumn viewColumn) w = Normal (Some p) ->
  result (getPreviewOnTargetColumn viewColumn)
         (exec (showPreview_finish p uri) w) = Normal (Some p).
Proof.
  unfold result, exec. rewrite !getPreviewOnTargetColumn_eq.
  rewrite showPreview_finish_eq. simpl. intros [= Hf]. f_equal.
  rewrite <- Hf. apply find_ext_in. intros q _.
  unfold on_target, activeViewColumn. simpl.
  rewrite (viewColumn_of_update w _ uri p q) by reflexivity.
  reflexivity.
Qed.

(** A second lookup after a call that created a preview finds it when its
    panel is on the target column. *)
Lemma lookup_again_created
    (p : Preview) (obj : PreviewObject) (uri : Uri) (viewColumn : Z)
    (w : World) :
  result (getPreviewOnTargetColumn viewColumn) w = Normal None ->
  occupies_target w viewColumn (panel_viewColumn obj) ->
  result (getPreviewOnTargetColumn viewColumn)
         (exec (showPreview_resolved p obj uri)
               (emit (PreviewCreate uri viewColumn) w)) = Normal (Some p).
Proof.
  unfold result, exec. rewrite !getPreviewOnTargetColumn_eq.
  rewrite showPreview_resolved_eq. simpl. intros [= Hf] Hocc. f_equal.
  set (w1 := mkWorld _ _ _ _ _ _ _).
  assert (Hcol : forall q,
             viewColumn_of w1 q
             = if decide (p = q) then panel_viewColumn obj
               else viewColumn_of w q).
  { intros q. unfold viewColumn_of, object_of, w1. simpl.
    destruct (decide (p = q)) as [->|Hne].
    - rewrite lookup_alter_eq, lookup_insert_eq. reflexivity.
    - rewrite lookup_alter_ne, lookup_insert_ne by exact Hne. reflexivity. }
  assert (Hon : forall c, on_target w1 viewColumn c = on_target w viewColumn c)
    by reflexivity.
  apply find_app_last.
  - rewrite Hon, Hcol. rewrite decide_True by reflexivity.
    apply on_target_spec, Hocc.
  - intros q Hq. rewrite Hon, Hcol.
    destruct (decide (p = q)) as [->|Hne]; [reflexivity|].
    rewrite (find_absent _ _ Hf q Hq). discriminate.
Qed.

(** C5, as the code has it.  [showPreview] operates on the first tracked
    preview whose panel is on the resolved target column (the active column
    for the token [Active], the active column plus one for every other
    token) and creates none; with no such preview it creates one and
    operates on it.  A second call for the same column operates on the same
    preview and creates none, provided the first call found its preview
    or the panel it created is on the resolved target column. *)
Theorem showPreview_found_or_created
    (created created' : Preview * PreviewObject) (uri : Uri)
    (viewColumn : Z) (w : World) :
  let found := result (getPreviewOnTargetColumn viewColumn) w in
  let first := showPreview_awaited created uri viewColumn in
  let second := showPreview_awaited created' uri viewColumn in
  match found with
  | Normal (Some p) =>
      (exists l1 l2,
          _previews w = l1 ++ p :: l2
          /\ occupies_target w viewColumn (viewColumn_of w p)
          /\ (forall q, q ∈ l1 ->
                ~ occupies_target w viewColumn (viewColumn_of w q)))
      /\ result first w = Normal p
      /\ _previews (exec first w) = _previews w
      /\ log (exec first w)
         = log w ++ [PreviewUpdate p (Some uri);
                     PanelReveal p (viewColumn_of w p)]
  | Normal None =>
      (forall q, q ∈ _previews w ->
         ~ occupies_target w viewColumn (viewColumn_of w q))
      /\ result first w = Normal (fst created)
      /\ _previews (exec first w) = _previews w ++ [fst created]
      /\ log (exec first w)
         = log w ++ [PreviewCreate uri viewColumn;
                     SetContext svgPreviewFocusContextKey true;
                     PreviewUpdate (fst created) (Some uri);
                     PanelReveal (fst created)
                                 (panel_viewColumn (snd created))]
  | Throw _ => False
  end
  /\ (found <> Normal None
      \/ occupies_target w viewColumn (panel_viewColumn (snd created)) ->
      exists (p : Preview) (c : Column),
        result first w = Normal p
        /\ result second (exec first w) = Normal p
        /\ _previews (exec second (exec first w)) = _previews (exec first w)
        /\ log (exec second (exec first w))
           = log (exec first w) ++ [PreviewUpdate p (Some uri);
                                    PanelReveal p c]).
Proof.
  intros found first second.
  pose proof (getPreviewOnTargetColumn_first viewColumn w) as Hfirst.
  fold found in Hfirst.
  destruct found as [[p|]|e] eqn:Hfound; [| |contradiction].
  - pose proof (showPreview_awaited_found created uri viewColumn w p Hfound)
      as H1.
    assert (Hr : result first w = Normal p)
      by (unfold result, first; rewrite H1; reflexivity).
    assert (Hw : exec first w = exec (showPreview_finish p uri) w)
      by (unfold exec at 1, first; rewrite H1; reflexivity).
    split.
    + split; [exact Hfirst|]. split; [exact Hr|].
      rewrite Hw. unfold exec. rewrite showPreview_finish_eq.
      split; reflexivity.
    + intros _. exists p, (viewColumn_of (exec first w) p).
      pose proof (lookup_again_found p uri viewColumn w Hfound) as Hagain.
      rewrite <- Hw in Hagain.
      pose proof (showPreview_awaited_found created' uri viewColumn
                    (exec first w) p Hagain) as H2.
      split; [exact Hr|]. clear Hw Hagain.
      remember (exec first w) as w1 eqn:Hw1.
      unfold result, exec, second. rewrite H2. unfold exec.
      rewrite showPreview_finish_eq. repeat split.
  - pose proof (showPreview_awaited_created created uri viewColumn w Hfound)
      as H1.
    assert (Hr : result first w = Normal (fst created))
      by (unfold result, first; rewrite H1; reflexivity).
    assert (Hw : exec first w
                 = exec (showPreview_resolved (fst created) (snd created) uri)
                        (emit (PreviewCreate uri viewColumn) w))
      by (unfold exec at 1, first; rewrite H1; reflexivity).
    split.
    + split; [exact Hfirst|]. split; [exact Hr|].
      rewrite Hw. unfold exec. rewrite showPreview_resolved_eq. simpl.
      split; [reflexivity|]. rewrite <- app_assoc. reflexivity.
    + intros [Hne|Hocc]; [congruence|].
      exists (fst created), (viewColumn_of (exec first w) (fst created)).
      pose proof (lookup_again_created (fst created) (snd created) uri
                    viewColumn w Hfound Hocc) as Hagain.
      rewrite <- Hw in Hagain.
      pose proof (showPreview_awaited_found created' uri viewColumn
                    (exec first w) (fst created) Hagain) as H2.
      split; [exact Hr|]. clear Hw Hagain.
      remember (exec first w) as w1 eqn:Hw1.
      unfold result, exec, second. rewrite H2. unfold exec.
      rewrite showPreview_finish_eq. repeat split.
Qed.

(** ** The calls a handler makes *)

Lemma appends_ret {A} (a : A) : appends (ret a).
Proof. intros w. exists []. simpl. rewrite app_nil_r. reflexivity. Qed.

Lemma appends_throw {A} (e : JsError) : appends (@throw A e).
Proof. intros w. exists []. simpl. rewrite app_nil_r. reflexivity. Qed.

Lemma appends_get : appends get.
Proof. intros w. exists []. simpl. rewrite app_nil_r. reflexivity. Qed.

Lemma appends_bind {A B} (m : M A) (k : A -> M B) :
  appends m -> (forall a, appends (k a)) -> appends (bind m k).
Proof.
  intros Hm Hk w. unfold exec, bind.
  destruct (Hm w) as [r1 H1]. unfold exec in H1.
  destruct (m w) as [[a|e] w1]; simpl in *; [|exists r1; exact H1].
  destruct (Hk a w1) as [r2 H2]. unfold exec in H2.
  exists (r1 ++ r2). rewrite H2, H1, app_assoc. reflexivity.
Qed.

Lemma appends_emit (e : Effect) : appends (modify (emit e)).
Proof. intros w. exists [e]. reflexivity. Qed.

Lemma appends_Preview_update (p : Preview) (uri : option Uri) :
  appends (Preview_update p uri).
Proof. intros w. exists [PreviewUpdate p uri]. destruct uri; reflexivity. Qed.

Lemma appends_Panel_reveal (p : Preview) (c : Column) :
  appends (Panel_reveal p c).
Proof. intros w. exists [PanelReveal p c]. reflexivity. Qed.

Create HintDb appends discriminated.
Hint Resolve appends_ret appends_throw appends_get appends_emit
  appends_Preview_update appends_Panel_reveal : appends.

Ltac appends_step :=
  match goal with
  | |- appends (bind _ _) => apply appends_bind; [|intros ?]
  | |- appends (match ?x with _ => _ end) => destruct x
  | |- appends _ => solve [auto with appends]
  end.

Ltac appends_auto := repeat appends_step.

Lemma appends_getPreviewOnTargetColumn (viewColumn : Z) :
  appends (getPreviewOnTargetColumn viewColumn).
Proof. unfold getPreviewOnTargetColumn. appends_auto. Qed.

Lemma appends_getPreviewOf (resource : Uri) : appends (getPreviewOf resource).
Proof. unfold getPreviewOf. appends_auto. Qed.

Hint Resolve appends_getPreviewOnTargetColumn appends_getPreviewOf : appends.

Lemma appends_shouldAutoOpenPreviewForEditor (editor : TextEditor) :
  appends (shouldAutoOpenPreviewForEditor editor).
Proof. unfold shouldAutoOpenPreviewForEditor. appends_auto. Qed.

Lemma appends_showPreview_finish (preview : Preview) (uri : Uri) :
  appends (showPreview_finish preview uri).
Proof. unfold showPreview_finish. appends_auto. Qed.

Lemma appends_logAutoOpenPreviewEvent : appends logAutoOpenPreviewEvent.
Proof. unfold logAutoOpenPreviewEvent. appends_auto. Qed.

Hint Resolve appends_shouldAutoOpenPreviewForEditor
  appends_showPreview_finish appends_logAutoOpenPreviewEvent : appends.

Lemma appends_showPreview (uri : Uri) (viewColumn : Z) :
  appends (showPreview uri viewColumn).
Proof. unfold showPreview. appends_auto. Qed.

Hint Resolve appends_showPreview : appends.

Lemma calls_of_log {A} (m : M A) (w : World) (l : list Effect) :
  log (exec m w) = log w ++ l -> calls m w = l.
Proof. unfold calls. intros ->. apply drop_app_length. Qed.

Lemma bind_get {B} (k : World -> M B) (w : World) : bind get k w = k w w.
Proof. reflexivity. Qed.

Lemma exec_bind_normal {A B} (m : M A) (k : A -> M B) (w w1 : World) (a : A) :
  m w = (Normal a, w1) -> bind m k w = k a w1.
Proof. unfold bind. intros ->. reflexivity. Qed.

(** The broadcast of [onDidChangeActiveTextEditor]: one [update(uri)] per
    tracked preview, in order. *)
Lemma forEach_update (uri : Uri) (l : list Preview) (w : World) :
  exists w1,
    forEach (fun preview => Preview_update preview (Some uri)) l w
    = (Normal tt, w1)
    /\ log w1 = log w ++ map (fun p => PreviewUpdate p (Some uri)) l.
Proof.
  revert w. induction l as [|p t IH]; intros w; simpl forEach.
  - exists w. split; [reflexivity|]. simpl. rewrite app_nil_r. reflexivity.
  - set (w0 := exec (Preview_update p (Some uri)) w).
    destruct (IH w0) as (w1 & Hrun & Hlog).
    exists w1. split.
    + rewrite (exec_bind_normal _ _ w w0 tt) by reflexivity. exact Hrun.
    + rewrite Hlog. unfold w0. simpl. rewrite <- app_assoc. reflexivity.
Qed.

(** ** Host events *)

(** C6: with no editor the handler changes nothing.  With an editor whose
    document is previewable and is not the source of the active preview,
    the calls of the handler start with one [update(uri)] for every tracked
    preview, whatever its source. *)
Theorem onDidChangeActiveTextEditor_broadcast (w : World) :
  onDidChangeActiveTextEditor None w = (Normal tt, w)
  /\ forall editor : TextEditor,
       isSvgUri (document_uri editor) = true ->
       (forall a, _activePreview w = Some a ->
                  toString (source_of w a) <> toString (document_uri editor)) ->
       exists rest,
         calls (onDidChangeActiveTextEditor (Some editor)) w
         = map (fun p => PreviewUpdate p (Some (document_uri editor)))
               (_previews w) ++ rest.
Proof.
  split; [reflexivity|]. intros editor Hsvg Hactive.
  unfold onDidChangeActiveTextEditor. rewrite Hsvg.
  assert (HisActive : isActivePreviewUri (document_uri editor) w
                      = (Normal false, w)).
  { unfold isActivePreviewUri, bind, get, ret.
    destruct (_activePreview w) as [a|] eqn:Ha; [|reflexivity].
    specialize (Hactive a eq_refl).
    apply String.eqb_neq in Hactive. rewrite Hactive. reflexivity. }
  destruct (forEach_update (document_uri editor) (_previews w) w)
    as (w1 & Hrun & Hlog).
  match goal with
  | |- exists _, calls (bind ?m _) _ = _ =>
      assert (Hfirst : m w = (Normal tt, w1))
  end.
  { rewrite (exec_bind_normal _ _ w w false HisActive). simpl.
    rewrite (exec_bind_normal _ _ w w w) by reflexivity. exact Hrun. }
  match goal with
  | |- exists _, calls (bind ?m ?k) _ = _ =>
      assert (Hk : appends (k tt)) by (cbv beta; appends_auto);
      destruct (Hk w1) as [rest Hrest];
      exists rest; apply calls_of_log;
      unfold exec; rewrite (exec_bind_normal m k w w1 tt Hfirst)
  end.
  unfold exec in Hrest. rewrite Hrest, Hlog, app_assoc. reflexivity.
Qed.

Lemma getPreviewOf_eq (resource : Uri) (w : World) :
  getPreviewOf resource w
  = (Normal (find (fun p => String.eqb (fsPath (source_of w p))
                                       (fsPath resource))
                  (_previews w)), w).
Proof. reflexivity. Qed.

Lemma onDidChangeTextDocument_eq (uri : Uri) (w : World) :
  onDidChangeTextDocument uri w
  = (Normal tt,
     match find (fun p => String.eqb (fsPath (source_of w p)) (fsPath uri))
                (_previews w) with
     | Some p => emit (PreviewUpdate p None) w
     | None => w
     end).
Proof.
  unfold onDidChangeTextDocument.
  rewrite (exec_bind_normal _ _ w w _ (getPreviewOf_eq uri w)).
  destruct (find _ (_previews w)); reflexivity.
Qed.

(** C7: the document-changed handler never throws.  When some tracked
    preview has the path of the changed document as its source path, the
    handler does one thing: it calls [update()], with no URI, on such a
    preview.  When none has, it does nothing. *)
Theorem onDidChangeTextDocument_updates_match (uri : Uri) (w : World) :
  result (onDidChangeTextDocument uri) w = Normal tt
  /\ ((exists q, q ∈ _previews w /\ fsPath (source_of w q) = fsPath uri) ->
      exists p,
        p ∈ _previews w
        /\ fsPath (source_of w p) = fsPath uri
        /\ exec (onDidChangeTextDocument uri) w
           = emit (PreviewUpdate p None) w)
  /\ ((forall q, q ∈ _previews w ->
                 fsPath (source_of w q) <> fsPath uri) ->
      exec (onDidChangeTextDocument uri) w = w).
Proof.
  unfold result, exec. rewrite onDidChangeTextDocument_eq. simpl.
  split; [reflexivity|].
  destruct (find _ (_previews w)) as [p|] eqn:Hf; split.
  - intros _. destruct (find_first _ _ _ Hf) as (l1 & l2 & Hl & Hp & _).
    exists p. repeat split.
    + rewrite Hl. apply elem_of_app. right. apply list_elem_of_here.
    + apply String.eqb_eq, Hp.
  - intros Hnone. destruct (find_first _ _ _ Hf) as (l1 & l2 & Hl & Hp & _).
    exfalso. apply (Hnone p).
    + rewrite Hl. apply elem_of_app. right. apply list_elem_of_here.
    + apply String.eqb_eq, Hp.
  - intros (q & Hq & Hpath). exfalso.
    pose proof (find_absent _ _ Hf q Hq) as Hfalse. simpl in Hfalse.
    apply String.eqb_neq in Hfalse. contradiction.
  - reflexivity.
Qed.

(** C10: when several tracked previews have the path of the changed
    document, the only call of the handler is [update()] on the first of
    them in registration order; no later preview is updated. *)
Theorem onDidChangeTextDocument_first_match_only
    (uri : Uri) (w : World) (l1 l2 : list Preview) (p : Preview) :
  _previews w = l1 ++ p :: l2 ->
  fsPath (source_of w p) = fsPath uri ->
  (forall q, q ∈ l1 -> fsPath (source_of w q) <> fsPath uri) ->
  calls (onDidChangeTextDocument uri) w = [PreviewUpdate p None]
  /\ forall q u, q ∈ l2 -> q <> p ->
       PreviewUpdate q u ∉ calls (onDidChangeTextDocument uri) w.
Proof.
  intros Hl Hp Hl1.
  assert (Hcalls : calls (onDidChangeTextDocument uri) w
                   = [PreviewUpdate p None]).
  { apply calls_of_log. unfold exec. rewrite onDidChangeTextDocument_eq.
    simpl. rewrite Hl.
    rewrite (find_first_of _ l1 l2 p); [reflexivity | |].
    - simpl. apply String.eqb_eq, Hp.
    - intros q Hq. simpl. apply String.eqb_neq, Hl1, Hq. }
  split; [exact Hcalls|].
  intros q u _ Hne. rewrite Hcalls. rewrite list_elem_of_singleton.
  intros [= Hq _]. contradiction.
Qed.

(** ** showSource *)

(** C8, as the code has it: with no active preview [showSource] throws a
    TypeError synchronously, in the manager, and makes no call: the
    document is never asked for.  With an active preview it asks the host
    for the document of its source. *)
Theorem showSource_without_active_preview (w : World) :
  (_activePreview w = None -> showSource w = (Throw TypeError, w))
  /\ (forall a, _activePreview w = Some a ->
        showSource w
        = (Normal tt, emit (OpenTextDocument (source_of w a)) w)).
Proof.
  unfold showSource, bind, get. simpl. split.
  - intros ->. reflexivity.
  - intros a ->. reflexivity.
Qed.

(** ** Construction *)

Lemma shouldAutoOpenPreviewForEditor_eq (editor : TextEditor) (w : World) :
  shouldAutoOpenPreviewForEditor editor w
  = (Normal
       (autoOpen w && isSvgUri (document_uri editor)
        && negb (bool_decide (is_Some
             (find (fun p => String.eqb (fsPath (source_of w p))
                                        (fsPath (document_uri editor)))
                   (_previews w))))), w).
Proof.
  unfold shouldAutoOpenPreviewForEditor, bind, get. simpl.
  destruct (autoOpen w), (isSvgUri (document_uri editor)); reflexivity.
Qed.

(** X18: the auto-open predicate answers true exactly when auto-open is
    configured, the editor's document is previewable and no tracked preview
    has the path of that document as its source path. *)
Lemma shouldAutoOpenPreviewForEditor_spec (editor : TextEditor) (w : World) :
  result (shouldAutoOpenPreviewForEditor editor) w = Normal true
  <-> autoOpen w = true
      /\ isSvgUri (document_uri editor) = true
      /\ (forall p, p ∈ _previews w ->
            fsPath (source_of w p) <> fsPath (document_uri editor)).
Proof.
  unfold result. rewrite shouldAutoOpenPreviewForEditor_eq. simpl.
  destruct (find _ (_previews w)) as [p|] eqn:Hf.
  - destruct (find_first _ _ _ Hf) as (l1 & l2 & Hl & Hp & _).
    rewrite bool_decide_true by (eexists; reflexivity).
    rewrite andb_false_r. split; [discriminate|].
    intros (_ & _ & Hnone). exfalso. apply (Hnone p).
    + rewrite Hl. apply elem_of_app. right. apply list_elem_of_here.
    + apply String.eqb_eq, Hp.
  - rewrite bool_decide_false by apply is_Some_None.
    rewrite andb_true_r. split.
    + intros [= H]. apply andb_prop in H as [-> ->].
      repeat split. intros p Hp.
      apply String.eqb_neq. apply (find_absent _ _ Hf p Hp).
    + intros (-> & -> & _). reflexivity.
Qed.

(** C9: at construction an automatic preview is requested exactly when
    there is an active editor, auto-open is configured, the editor's
    document is previewable and no tracked preview has its path; the
    request is preceded by exactly one telemetry event with the payload
    autoOpen = yes.  Otherwise, and with no active editor, the constructor
    makes no call and tracks no preview. *)
Theorem constructor_auto_open (w : World) :
  let qualifies (editor : TextEditor) :=
    autoOpen w = true
    /\ isSvgUri (document_uri editor) = true
    /\ (forall p, p ∈ _previews (initialised w) ->
          fsPath (source_of (initialised w) p)
          <> fsPath (document_uri editor)) in
  _previews (exec constructor w) = []
  /\ (forall editor, activeTextEditor w = Some editor ->
        qualifies editor ->
        calls constructor w
        = [SendTelemetryEvent TELEMETRY_EVENT_SHOW_PREVIEW_TO_SIDE
                              [("autoOpen", "yes")];
           PreviewCreate (document_uri editor) ViewColumn.Beside])
  /\ (forall editor, activeTextEditor w = Some editor ->
        ~ qualifies editor -> calls constructor w = [])
  /\ (activeTextEditor w = None -> calls constructor w = []).
Proof.
  intros qualifies.
  split.
  { pose proof (tracked_constructor w) as H.
    exact (f_equal (fun t => fst (fst t)) H). }
  assert (Hshape : forall editor, activeTextEditor w = Some editor ->
            calls constructor w
            = if autoOpen w && isSvgUri (document_uri editor)
              then [SendTelemetryEvent TELEMETRY_EVENT_SHOW_PREVIEW_TO_SIDE
                                       [("autoOpen", "yes")];
                    PreviewCreate (document_uri editor) ViewColumn.Beside]
              else []).
  { intros editor Hed. apply calls_of_log.
    unfold constructor. rewrite !exec_bind_modify.
    unfold exec. rewrite bind_get.
    change (activeTextEditor (with_activePreview None (with_previews [] w)))
      with (activeTextEditor w). rewrite Hed.
    rewrite (exec_bind_normal _ _ _ _ _
               (shouldAutoOpenPreviewForEditor_eq editor _)).
    simpl. destruct (autoOpen w), (isSvgUri (document_uri editor)); simpl;
      rewrite ?app_nil_r; try reflexivity.
    rewrite <- app_assoc. reflexivity. }
  split; [|split].
  - intros editor Hed (Hauto & Hsvg & _).
    rewrite (Hshape editor Hed), Hauto, Hsvg. reflexivity.
  - intros editor Hed Hnot. rewrite (Hshape editor Hed).
    destruct (autoOpen w) eqn:Hauto, (isSvgUri (document_uri editor)) eqn:Hsvg;
      try reflexivity.
    exfalso. apply Hnot. unfold qualifies.
    split; [first [reflexivity | assumption]|].
    split; [first [reflexivity | assumption]|].
    intros p Hp. inversion Hp.
  - intros Hed. apply calls_of_log. unfold constructor.
    rewrite !exec_bind_modify. unfold exec. rewrite bind_get.
    change (activeTextEditor (with_activePreview None (with_previews [] w)))
      with (activeTextEditor w). rewrite Hed. simpl.
    rewrite app_nil_r. reflexivity.
Qed.

(** ** Further properties of the disposal callback *)

Lemma elem_of_splice {A} (start deleteCount : Z) (l : list A) (x : A) :
  x ∈ splice start deleteCount l -> x ∈ l.
Proof.
  unfold splice. intros Hx. apply elem_of_app in Hx as [Hx|Hx].
  - exact (subseteq_take _ _ _ Hx).
  - exact (subseteq_drop _ _ _ Hx).
Qed.

Lemma previews_after_onDispose (p : Preview) (w : World) :
  _previews (step w (Fire_onDispose p))
  = splice (indexOf p (_previews w)) 1 (_previews w).
Proof. reflexivity. Qed.

(** X1: the disposal callback of a tracked preview removes that preview, by
    identity, and nothing else: one occurrence of it leaves the collection,
    the order of the others is kept, and every other preview is tracked
    afterwards exactly when it was before, whatever its source. *)
Theorem onDispose_tracked_removes_only_it (p : Preview) (w : World) :
  p ∈ _previews w ->
  let w' := step w (Fire_onDispose p) in
  (exists l1 l2, _previews w = l1 ++ p :: l2
                 /\ (p ∉ l1)
                 /\ _previews w' = l1 ++ l2)
  /\ (forall q, q <> p -> (q ∈ _previews w' <-> q ∈ _previews w))
  /\ S (length (_previews w')) = length (_previews w).
Proof.
  intros Hp w'. unfold w'. rewrite previews_after_onDispose.
  destruct (splice_indexOf_in p (_previews w) Hp) as (l1 & l2 & Hl & Hl1 & Hs).
  rewrite Hs, Hl. split; [|split].
  - exists l1, l2. repeat split. exact Hl1.
  - intros q Hq. rewrite !elem_of_app, elem_of_cons. tauto.
  - rewrite !length_app. simpl. lia.
Qed.

(** X2: the disposal callback of a preview that is not tracked still
    completes normally; it leaves an empty collection empty, and from a
    collection that is not empty it removes the preview registered last. *)
Theorem onDispose_untracked_removes_newest (p : Preview) (w : World) :
  p ∉ _previews w ->
  let w' := step w (Fire_onDispose p) in
  result (onDispose_callback p) w = Normal tt
  /\ (_previews w = [] -> _previews w' = [])
  /\ (forall l q, _previews w = l ++ [q] -> _previews w' = l).
Proof.
  intros Hp w'. unfold w'. rewrite previews_after_onDispose.
  rewrite (splice_indexOf_notin p (_previews w) Hp).
  split; [reflexivity|]. split.
  - intros ->. reflexivity.
  - intros l q ->. rewrite length_app. simpl.
    replace (length l + 1 - 1)%nat with (length l) by lia.
    apply take_app_length.
Qed.

(** X3: registering a preview that is not tracked and disposing it again
    gives the tracked collection back as it was, but not the focus: the
    pointer is unset and the flag false, also when another preview held the
    focus before. *)
Theorem register_then_dispose (p : Preview) (obj : PreviewObject) (w : World) :
  p ∉ _previews w ->
  let w' := run w [Resolve_revive p obj; Fire_onDispose p] in
  _previews w' = _previews w
  /\ _activePreview w' = None
  /\ focusFlag w' = false.
Proof.
  intros Hp w'. unfold w'. simpl run.
  rewrite previews_after_onDispose.
  change (_previews (step w (Resolve_revive p obj))) with (_previews w ++ [p]).
  split; [|split].
  - rewrite splice_indexOf_remove_first
      by (apply elem_of_app; right; apply list_elem_of_here).
    rewrite remove_first_app by exact Hp. apply app_nil_r.
  - reflexivity.
  - unfold focusFlag. simpl. rewrite lookup_insert_eq.
    apply bool_decide_false. discriminate.
Qed.

(** ** The focus pointer along a trace *)

Lemma activePreview_step (w : World) (ev : Event) :
  _activePreview (step w ev) = focus_after (_activePreview w) ev.
Proof.
  pose proof (step_frames_previews w ev) as Hfr.
  destruct ev as [uri c|p obj uri| |p obj|p|p a|uri|ed|ed|b|p c];
    simpl focus_after;
    try exact (f_equal (fun t => snd (fst t)) Hfr);
    try reflexivity.
  destruct a; reflexivity.
Qed.

(** X4: the focus pointer is decided by the last event that registers a
    preview, disposes one or reports a view state, whichever preview that
    event is about: after any trace it is the result of running the
    two-state focus machine over the trace. *)
Theorem activePreview_last_writer (trace : list Event) (w : World) :
  _activePreview (run w trace)
  = fold_left focus_after trace (_activePreview w).
Proof.
  revert w. induction trace as [|ev rest IH]; intros w; simpl.
  - reflexivity.
  - rewrite IH, activePreview_step. reflexivity.
Qed.

(** X6: every event that is not a registration or one of the two callbacks
    of a registered preview (the commands, the two host events, the host's
    own changes) leaves the tracked collection, the focus pointer and the
    context keys as they are. *)
Theorem other_events_keep_tracking (w : World) (ev : Event) :
  of_registration ev = false ->
  _previews (step w ev) = _previews w
  /\ _activePreview (step w ev) = _activePreview w
  /\ contextKeys (step w ev) = contextKeys w.
Proof.
  intros Hev. pose proof (step_frames_previews w ev) as Hfr.
  destruct ev; try discriminate Hev;
    (split; [exact (f_equal (fun t => fst (fst t)) Hfr)|];
     split; [exact (f_equal (fun t => snd (fst t)) Hfr)|];
     exact (f_equal snd Hfr)).
Qed.

(** ** What is tracked *)

Lemma previews_step (w : World) (ev : Event) (p : Preview) :
  p ∈ _previews (step w ev) -> p ∈ _previews w \/ p ∈ registered [ev].
Proof.
  pose proof (step_frames_previews w ev) as Hfr.
  destruct ev as [uri c|q obj uri| |q obj|q|q a|uri|ed|ed|b|q c];
    try (rewrite (tracked_previews _ _ Hfr); auto).
  - change (_previews (step w (Resolve_create q obj uri)))
      with (_previews w ++ [q]).
    rewrite elem_of_app. simpl. tauto.
  - change (_previews (step w (Resolve_revive q obj)))
      with (_previews w ++ [q]).
    rewrite elem_of_app. simpl. tauto.
  - rewrite previews_after_onDispose. intros H. left.
    exact (elem_of_splice _ _ _ _ H).
  - destruct a; simpl; auto.
Qed.

Lemma registered_cons (ev : Event) (rest : list Event) (p : Preview) :
  p ∈ registered (ev :: rest) <-> p ∈ registered [ev] \/ p ∈ registered rest.
Proof.
  destruct ev; simpl; rewrite ?elem_of_cons, ?elem_of_nil; tauto.
Qed.

Lemma previews_run (trace : list Event) (w : World) (p : Preview) :
  p ∈ _previews (run w trace) -> p ∈ _previews w \/ p ∈ registered trace.
Proof.
  revert w. induction trace as [|ev rest IH]; intros w; simpl run.
  - auto.
  - intros H. rewrite registered_cons.
    destruct (IH _ H) as [Hs|Hr]; [|tauto].
    destruct (previews_step w ev p Hs); tauto.
Qed.

(** X5: whatever the events, the manager tracks only what was registered:
    a preview in the collection of a state reached from the constructed
    manager was handed over by one of the registrations of the trace. *)
Theorem tracked_previews_were_registered
    (editor : option TextEditor) (isAutoOpen : bool) (trace : list Event)
    (p : Preview) :
  p ∈ _previews (run (initial editor isAutoOpen) trace) ->
  p ∈ registered trace.
Proof.
  intros H. destruct (previews_run trace _ p H) as [Hi|Hr]; [|exact Hr].
  pose proof (tracked_constructor (host editor isAutoOpen)) as Hc.
  apply (f_equal (fun t => fst (fst t))) in Hc. simpl in Hc.
  unfold initial in Hi. rewrite Hc in Hi. inversion Hi.
Qed.

Lemma lifecycle_previews (trace : list Event) (w : World) (live : list Preview) :
  _previews w = live ->
  lifecycle live trace = true ->
  _previews (run w trace) = fold_left live_after trace live.
Proof.
  revert w live. induction trace as [|ev rest IH]; intros w live Hl Hlc.
  - exact Hl.
  - simpl run. simpl fold_left.
    pose proof (step_frames_previews w ev) as Hfr.
    destruct ev as [uri c|p obj uri| |p obj|p|p a|uri|ed|ed|b|p c];
      simpl in Hlc; simpl live_after;
      try (apply IH; [rewrite (tracked_previews _ _ Hfr); exact Hl | exact Hlc]).
    + apply IH; [simpl; rewrite Hl; reflexivity | exact Hlc].
    + apply IH; [simpl; rewrite Hl; reflexivity | exact Hlc].
    + apply andb_prop in Hlc as [Hin Hlc]. apply bool_decide_eq_true in Hin.
      apply IH; [|exact Hlc].
      rewrite previews_after_onDispose, Hl.
      apply splice_indexOf_remove_first, Hin.
    + destruct a.
      * apply andb_prop in Hlc as [_ Hlc]. apply IH; [exact Hl | exact Hlc].
      * apply IH; [exact Hl | exact Hlc].
Qed.

(** X7: along a trace that follows the lifecycle, the tracked collection is
    exactly the live previews, in the order of their registration: each
    registration appends, each disposal removes the disposed preview, no
    other event changes it. *)
Theorem previews_are_the_live_ones
    (editor : option TextEditor) (isAutoOpen : bool) (trace : list Event) :
  lifecycle [] trace = true ->
  _previews (run (initial editor isAutoOpen) trace)
  = fold_left live_after trace [].
Proof.
  intros Hlc. apply lifecycle_previews; [|exact Hlc].
  pose proof (tracked_constructor (host editor isAutoOpen)) as Hc.
  exact (f_equal (fun t => fst (fst t)) Hc).
Qed.

(** ** Edge cases of the lookup on the target column *)

Lemma find_all_false {A} (f : A -> bool) (l : list A) :
  (forall y, y ∈ l -> f y = false) -> find f l = None.
Proof.
  induction l as [|x t IH]; intros H; simpl; [reflexivity|].
  rewrite (H x) by apply list_elem_of_here.
  apply IH. intros y Hy. apply H, list_elem_of_further, Hy.
Qed.

Lemma showPreview_not_found (uri : Uri) (viewColumn : Z) (w : World) :
  result (getPreviewOnTargetColumn viewColumn) w = Normal None ->
  showPreview uri viewColumn w
  = (Normal None, emit (PreviewCreate uri viewColumn) w).
Proof.
  unfold result. rewrite getPreviewOnTargetColumn_eq. simpl. intros [= Hf].
  unfold showPreview, bind. rewrite getPreviewOnTargetColumn_eq, Hf.
  reflexivity.
Qed.

(** X8: with no active text editor (a preview panel has the focus, say) and
    every tracked panel in a column of the editor area, the lookup finds no
    preview for any token: [showPreview] then asks for a new preview and
    does nothing else. *)
Theorem showPreview_without_editor_creates
    (uri : Uri) (viewColumn : Z) (w : World) :
  activeTextEditor w = None ->
  (forall p, p ∈ _previews w -> editor_column (viewColumn_of w p)) ->
  result (getPreviewOnTargetColumn viewColumn) w = Normal None
  /\ calls (showPreview uri viewColumn) w = [PreviewCreate uri viewColumn].
Proof.
  intros Hed Hcols.
  assert (Hnone : result (getPreviewOnTargetColumn viewColumn) w = Normal None).
  { unfold result. rewrite getPreviewOnTargetColumn_eq. simpl. f_equal.
    apply find_all_false. intros p Hp. specialize (Hcols p Hp).
    unfold on_target, activeViewColumn. rewrite Hed.
    unfold editor_column in Hcols.
    destruct (viewColumn_of w p) as [z|];
      destruct (viewColumn =? ViewColumn.Active); simpl; try reflexivity;
      unfold ViewColumn.Active; lia. }
  split; [exact Hnone|].
  apply calls_of_log. unfold exec.
  rewrite (showPreview_not_found uri viewColumn w Hnone). reflexivity.
Qed.

(** X9: when the active editor has no view column, the sum with one is not a
    number: for every token but [Active] the lookup finds no preview,
    whatever is tracked, and [showPreview] asks for a new one. *)
Theorem showPreview_editor_without_column_creates
    (uri : Uri) (viewColumn : Z) (w : World) (editor : TextEditor) :
  activeTextEditor w = Some editor ->
  editor_viewColumn editor = None ->
  viewColumn <> ViewColumn.Active ->
  result (getPreviewOnTargetColumn viewColumn) w = Normal None
  /\ calls (showPreview uri viewColumn) w = [PreviewCreate uri viewColumn].
Proof.
  intros Hed Hcol Hv.
  assert (Hnone : result (getPreviewOnTargetColumn viewColumn) w = Normal None).
  { unfold result. rewrite getPreviewOnTargetColumn_eq. simpl. f_equal.
    apply find_all_false. intros p _.
    unfold on_target, activeViewColumn. rewrite Hed, Hcol.
    apply Z.eqb_neq in Hv. rewrite Hv.
    destruct (viewColumn_of w p); reflexivity. }
  split; [exact Hnone|].
  apply calls_of_log. unfold exec.
  rewrite (showPreview_not_found uri viewColumn w Hnone). reflexivity.
Qed.

(** X10: two calls of [showPreview] made before the first creation has
    resolved both ask for a new preview: nothing is tracked until
    [Preview.create] resolves, so the second lookup fails like the first. *)
Theorem showPreview_twice_before_resolution
    (uri uri' : Uri) (viewColumn : Z) (w : World) :
  result (getPreviewOnTargetColumn viewColumn) w = Normal None ->
  let w' := run w [Call_showPreview uri viewColumn;
                   Call_showPreview uri' viewColumn] in
  log w' = log w ++ [PreviewCreate uri viewColumn;
                     PreviewCreate uri' viewColumn]
  /\ _previews w' = _previews w.
Proof.
  intros Hnone w'. unfold w'. simpl run. unfold step, exec. simpl handler.
  rewrite (exec_bind_normal _ _ w _ _ (showPreview_not_found uri viewColumn
                                         w Hnone)).
  simpl.
  assert (Hnone' : result (getPreviewOnTargetColumn viewColumn)
                          (emit (PreviewCreate uri viewColumn) w)
                   = Normal None).
  { unfold result in *. rewrite getPreviewOnTargetColumn_eq in *. exact Hnone. }
  rewrite (exec_bind_normal _ _ _ _ _
             (showPreview_not_found uri' viewColumn _ Hnone')).
  simpl. rewrite <- app_assoc. split; reflexivity.
Qed.

(** ** showSource behind the focus flag *)

(** X11: in every state reached from the constructed manager, [showSource]
    completes normally exactly when the focus flag is true, and throws the
    TypeError exactly when it is not: a command guarded by the flag never
    throws. *)
Theorem showSource_guarded_by_focusFlag
    (editor : option TextEditor) (isAutoOpen : bool) (trace : list Event) :
  let w := run (initial editor isAutoOpen) trace in
  result showSource w
  = if focusFlag w then Normal tt else Throw TypeError.
Proof.
  intros w.
  assert (Hc : focus_consistent w)
    by apply focus_consistent_run, focus_consistent_initial.
  unfold focus_consistent in Hc. unfold result, showSource, bind, get. simpl.
  destruct (_activePreview w) as [a|]; destruct (focusFlag w);
    try reflexivity.
  - exfalso. assert (H : false = true) by (apply Hc; eexists; reflexivity).
    discriminate H.
  - exfalso. destruct (proj1 Hc eq_refl) as [x Hx]. discriminate Hx.
Qed.

(** ** The active-editor handler, case by case *)

(** X12: an editor on a document that is not previewable changes nothing
    and makes no call, whatever is tracked or configured. *)
Theorem onDidChangeActiveTextEditor_not_svg (editor : TextEditor) (w : World) :
  isSvgUri (document_uri editor) = false ->
  onDidChangeActiveTextEditor (Some editor) w = (Normal tt, w).
Proof.
  intros Hsvg. unfold onDidChangeActiveTextEditor. rewrite Hsvg.
  rewrite (exec_bind_normal _ _ w w tt eq_refl).
  rewrite (exec_bind_normal _ _ w w _
             (shouldAutoOpenPreviewForEditor_eq editor w)).
  rewrite Hsvg, andb_false_r. reflexivity.
Qed.

(** X13: an editor on the source of the active preview changes nothing and
    makes no call, when auto-open is off or some tracked preview has the
    path of the document: no preview is re-rendered. *)
Theorem onDidChangeActiveTextEditor_active_source
    (editor : TextEditor) (w : World) (a : Preview) :
  _activePreview w = Some a ->
  toString (source_of w a) = toString (document_uri editor) ->
  autoOpen w = false
  \/ (exists q, q ∈ _previews w
                /\ fsPath (source_of w q) = fsPath (document_uri editor)) ->
  onDidChangeActiveTextEditor (Some editor) w = (Normal tt, w).
Proof.
  intros Ha Hsrc Hno. unfold onDidChangeActiveTextEditor.
  assert (Hfirst :
    (if isSvgUri (document_uri editor)
     then isActive <- isActivePreviewUri (document_uri editor) ;;
          if negb isActive
          then w0 <- get ;;
               forEach (fun preview =>
                          Preview_update preview (Some (document_uri editor)))
                       (_previews w0)
          else ret tt
     else ret tt) w = (Normal tt, w)).
  { destruct (isSvgUri (document_uri editor)); [|reflexivity].
    unfold isActivePreviewUri, bind, get, ret. rewrite Ha.
    apply String.eqb_eq in Hsrc. rewrite Hsrc. reflexivity. }
  rewrite (exec_bind_normal _ _ w w tt Hfirst).
  rewrite (exec_bind_normal _ _ w w _
             (shouldAutoOpenPreviewForEditor_eq editor w)).
  destruct Hno as [Hoff|(q & Hq & Hpath)].
  - rewrite Hoff. reflexivity.
  - destruct (find _ (_previews w)) as [p|] eqn:Hf.
    + rewrite bool_decide_true by (eexists; reflexivity).
      rewrite andb_false_r. reflexivity.
    + exfalso. pose proof (find_absent _ _ Hf q Hq) as Hfalse.
      simpl in Hfalse. apply String.eqb_neq in Hfalse. contradiction.
Qed.

Lemma forEach_update_autoOpen (uri : Uri) (l : list Preview) (w : World) :
  autoOpen (exec (forEach (fun preview => Preview_update preview (Some uri)) l)
                 w)
  = autoOpen w.
Proof.
  revert w. induction l as [|p t IH]; intros w; [reflexivity|].
  simpl forEach. unfold exec.
  rewrite (exec_bind_normal _ _ w (exec (Preview_update p (Some uri)) w) tt)
    by reflexivity.
  etransitivity; [apply IH | reflexivity].
Qed.

(** X14: with auto-open off, the active-editor handler sends no telemetry,
    asks for no preview and reveals none: its calls are either none or the
    broadcast of [update(uri)] to the tracked previews, and the tracked
    collection and the focus are as before. *)
Theorem onDidChangeActiveTextEditor_autoOpen_off
    (editor : TextEditor) (w : World) :
  autoOpen w = false ->
  let h := onDidChangeActiveTextEditor (Some editor) in
  (calls h w = []
   \/ calls h w = map (fun p => PreviewUpdate p (Some (document_uri editor)))
                      (_previews w))
  /\ _previews (exec h w) = _previews w
  /\ _activePreview (exec h w) = _activePreview w.
Proof.
  intros Hoff h.
  pose proof (frames_onDidChangeActiveTextEditor (Some editor) w) as Hfr.
  split; [|split;
           [exact (f_equal (fun t => fst (fst t)) Hfr)
           |exact (f_equal (fun t => snd (fst t)) Hfr)]].
  unfold h, onDidChangeActiveTextEditor.
  assert (Hrest : forall w1, autoOpen w1 = false ->
            exec (should <- shouldAutoOpenPreviewForEditor editor ;;
                  if should
                  then logAutoOpenPreviewEvent ;;
                       showPreview (document_uri editor) ViewColumn.Beside ;;
                       ret tt
                  else ret tt) w1 = w1).
  { intros w1 H1. unfold exec.
    rewrite (exec_bind_normal _ _ w1 w1 _
               (shouldAutoOpenPreviewForEditor_eq editor w1)).
    rewrite H1. reflexivity. }
  destruct (isSvgUri (document_uri editor)).
  - destruct (isActivePreviewUri (document_uri editor) w) as [r w0] eqn:Hact.
    assert (Hw0 : w0 = w /\ exists b, r = Normal b).
    { unfold isActivePreviewUri, bind, get, ret in Hact.
      injection Hact as <- <-. split; [reflexivity | eexists; reflexivity]. }
    destruct Hw0 as [-> [b ->]].
    destruct b.
    + left. apply calls_of_log. unfold exec.
      rewrite (exec_bind_normal _ _ w w tt).
      * fold (exec (should <- shouldAutoOpenPreviewForEditor editor ;;
                    if should
                    then logAutoOpenPreviewEvent ;;
                         showPreview (document_uri editor) ViewColumn.Beside ;;
                         ret tt
                    else ret tt) w).
        rewrite (Hrest w Hoff), app_nil_r. reflexivity.
      * rewrite (exec_bind_normal _ _ w w true Hact). reflexivity.
    + right. apply calls_of_log.
      destruct (forEach_update (document_uri editor) (_previews w) w)
        as (w1 & Hrun & Hlog).
      unfold exec. rewrite (exec_bind_normal _ _ w w1 tt).
      * fold (exec (should <- shouldAutoOpenPreviewForEditor editor ;;
                    if should
                    then logAutoOpenPreviewEvent ;;
                         showPreview (document_uri editor) ViewColumn.Beside ;;
                         ret tt
                    else ret tt) w1).
        rewrite Hrest; [exact Hlog|].
        pose proof (forEach_update_autoOpen (document_uri editor)
                      (_previews w) w) as Hau.
        unfold exec in Hau. rewrite Hrun in Hau. simpl in Hau.
        rewrite Hau. exact Hoff.
      * rewrite (exec_bind_normal _ _ w w false Hact). simpl.
        rewrite bind_get. exact Hrun.
  - left. apply calls_of_log. unfold exec.
    rewrite (exec_bind_normal _ _ w w tt eq_refl).
    fold (exec (should <- shouldAutoOpenPreviewForEditor editor ;;
                if should
                then logAutoOpenPreviewEvent ;;
                     showPreview (document_uri editor) ViewColumn.Beside ;;
                     ret tt
                else ret tt) w).
    rewrite (Hrest w Hoff), app_nil_r. reflexivity.
Qed.

(** X15: with auto-open on and nothing tracked, an editor on a previewable
    document makes the handler send the telemetry event once and ask for a
    preview beside the editor, in this order, and nothing else. *)
Theorem onDidChangeActiveTextEditor_auto_open
    (editor : TextEditor) (w : World) :
  autoOpen w = true ->
  isSvgUri (document_uri editor) = true ->
  _previews w = [] ->
  calls (onDidChangeActiveTextEditor (Some editor)) w
  = [SendTelemetryEvent TELEMETRY_EVENT_SHOW_PREVIEW_TO_SIDE
                        [("autoOpen", "yes")];
     PreviewCreate (document_uri editor) ViewColumn.Beside].
Proof.
  intros Hon Hsvg Hempty. apply calls_of_log.
  unfold exec, onDidChangeActiveTextEditor. rewrite Hsvg.
  assert (Hfirst :
    (isActive <- isActivePreviewUri (document_uri editor) ;;
     if negb isActive
     then w0 <- get ;;
          forEach (fun preview =>
                     Preview_update preview (Some (document_uri editor)))
                  (_previews w0)
     else ret tt) w = (Normal tt, w)).
  { unfold isActivePreviewUri, bind, get, ret.
    destruct (_activePreview w) as [a|]; [destruct (String.eqb _ _)|];
      simpl; rewrite ?Hempty; reflexivity. }
  rewrite (exec_bind_normal _ _ w w tt Hfirst).
  rewrite (exec_bind_normal _ _ w w _
             (shouldAutoOpenPreviewForEditor_eq editor w)).
  rewrite Hon, Hsvg, Hempty. simpl.
  unfold bind at 1. simpl.
  unfold showPreview, bind. rewrite getPreviewOnTargetColumn_eq.
  simpl. rewrite Hempty. simpl. rewrite <- app_assoc. reflexivity.
Qed.

(** ** Restoration and construction *)

(** X16: restoring panels one after the other tracks the revived previews
    in the order of restoration, behind those tracked before, and leaves the
    focus on the one restored last; each revived preview is re-rendered once,
    with no URI, and none is revealed or created. *)
Theorem deserializeWebviewPanel_in_sequence
    (revived : list (Preview * PreviewObject)) (w : World) :
  let w' := run w (map (fun po => Resolve_revive (fst po) (snd po)) revived) in
  _previews w' = _previews w ++ map fst revived
  /\ _activePreview w'
     = match last (map fst revived) with
       | Some p => Some p
       | None => _activePreview w
       end
  /\ log w'
     = log w ++ List.flat_map
                  (fun po => [SetContext svgPreviewFocusContextKey true;
                              PreviewUpdate (fst po) None])
                  revived.
Proof.
  revert w. induction revived as [|[p obj] t IH]; intros w; simpl.
  - rewrite !app_nil_r. repeat split.
  - destruct (IH (step w (Resolve_revive p obj))) as (Hp & Ha & Hl).
    split; [|split].
    + rewrite Hp. simpl. rewrite <- app_assoc. reflexivity.
    + rewrite Ha. rewrite last_cons. destruct (last (map fst t)); reflexivity.
    + rewrite Hl. simpl. rewrite <- !app_assoc. reflexivity.
Qed.

(** X17: the constructor unsets the focus pointer and empties the collection
    but never publishes the focus flag: the context keys are those the host
    had before, so the flag after construction is the flag before it. *)
Theorem constructor_keeps_context (w : World) :
  contextKeys (exec constructor w) = contextKeys w
  /\ focusFlag (exec constructor w) = focusFlag w
  /\ _activePreview (exec constructor w) = None.
Proof.
  pose proof (tracked_constructor w) as H.
  assert (Hc : contextKeys (exec constructor w) = contextKeys w)
    by exact (f_equal snd H).
  split; [exact Hc|]. split.
  - unfold focusFlag. rewrite Hc. reflexivity.
  - exact (f_equal (fun t => snd (fst t)) H).
Qed.

End PreviewManager.

(** ** Concrete runs *)

Abbreviation sample_run := (run sample_isSvgUri sample_event_name).
Abbreviation sample_initial := (initial sample_isSvgUri sample_event_name).

(** C1, the claim as stated fails: preview 0 is tracked and does not hold the
    focus, preview 1 does; the disposal callback of preview 0 unsets the
    pointer and turns the flag to false. *)
Lemma onDispose_unfocused_clears_focus :
  let w := sample_run (sample_initial None false) two_registrations in
  let w' := step sample_isSvgUri sample_event_name w (Fire_onDispose 0%nat) in
  _previews w = [0; 1]%nat
  /\ _activePreview w = Some 1%nat
  /\ focusFlag w = true
  /\ _activePreview w' = None
  /\ focusFlag w' = false.
Proof. vm_compute. repeat split. Qed.

(** C2, the claim as stated fails: after its disposal, preview 0 reports its
    panel active; the pointer is set to it and the collection is empty. *)
Lemma focus_after_disposal_dangles :
  let w := sample_run (sample_initial None false) focus_after_disposal in
  _activePreview w = Some 0%nat /\ _previews w = [].
Proof. vm_compute. split; reflexivity. Qed.

(** The same through the missed case of [splice]: the second disposal of
    preview 0 evicts preview 1, which is live and gains focus afterwards. *)
Lemma double_disposal_dangles :
  let w := sample_run (sample_initial None false) double_disposal in
  _activePreview w = Some 1%nat /\ _previews w = [].
Proof. vm_compute. split; reflexivity. Qed.

(** C2, a trace that follows the lifecycle. *)
Lemma activePreview_is_tracked_witness :
  let w := sample_run (sample_initial None false) focus_churn in
  lifecycle [] focus_churn = true
  /\ _activePreview w = Some 0%nat
  /\ (0%nat ∈ _previews w).
Proof.
  split; [reflexivity|]. split; [reflexivity|].
  apply (activePreview_is_tracked sample_isSvgUri sample_event_name
           None false focus_churn); reflexivity.
Defined.

(** C4: preview 0 is disposed a second time when only preview 1 is tracked:
    the callback completes normally and removes preview 1. *)
Lemma second_disposal_evicts_tracked_preview :
  let w := sample_run (sample_initial None false)
                      (two_registrations ++ [Fire_onDispose 0%nat]) in
  let w' := step sample_isSvgUri sample_event_name w (Fire_onDispose 0%nat) in
  _previews w = [1%nat]
  /\ result (onDispose_callback 0%nat) w = Normal tt
  /\ _previews w' = [].
Proof. vm_compute. repeat split. Qed.

(** C5, the claim as stated fails: with the editor in column one,
    [showPreview] is called twice for column three.  The lookup is on column
    two both times, the panel created by the first call is on column three,
    and the second call creates a second preview. *)
Lemma showPreview_twice_creates_twice :
  let w := sample_initial (Some editor_a) false in
  let first :=
    showPreview_awaited (0%nat, mkPreview a_svg (Some ViewColumn.Three))
                        a_svg ViewColumn.Three in
  let second :=
    showPreview_awaited (1%nat, mkPreview a_svg (Some ViewColumn.Three))
                        a_svg ViewColumn.Three in
  result first w = Normal 0%nat
  /\ result second (exec first w) = Normal 1%nat
  /\ _previews (exec second (exec first w)) = [0; 1]%nat
  /\ calls second (exec first w)
     = [PreviewCreate a_svg ViewColumn.Three;
        SetContext svgPreviewFocusContextKey true;
        PreviewUpdate 1%nat (Some a_svg);
        PanelReveal 1%nat (Some ViewColumn.Three)].
Proof. vm_compute. repeat split. Qed.

(** The same with no active editor, for the token [Beside]: the lookup is on
    column zero, which no panel occupies. *)
Lemma showPreview_twice_without_editor :
  let w := sample_initial None false in
  let first :=
    showPreview_awaited (0%nat, mkPreview a_svg (Some ViewColumn.One))
                        a_svg ViewColumn.Beside in
  let second :=
    showPreview_awaited (1%nat, mkPreview a_svg (Some ViewColumn.Two))
                        a_svg ViewColumn.Beside in
  result first w = Normal 0%nat
  /\ result second (exec first w) = Normal 1%nat
  /\ _previews (exec second (exec first w)) = [0; 1]%nat.
Proof. vm_compute. repeat split. Qed.

(** C5: the editor is in column one and the preview is shown beside it, on
    column two; the second call finds it there. *)
Lemma showPreview_found_or_created_witness :
  let w := sample_initial (Some editor_a) false in
  let first :=
    showPreview_awaited (0%nat, mkPreview a_svg (Some ViewColumn.Two))
                        a_svg ViewColumn.Beside in
  let second :=
    showPreview_awaited (1%nat, mkPreview a_svg (Some ViewColumn.Two))
                        a_svg ViewColumn.Beside in
  occupies_target w ViewColumn.Beside (Some ViewColumn.Two)
  /\ exists (p : Preview) (c : Column),
       result first w = Normal p
       /\ result second (exec first w) = Normal p
       /\ _previews (exec second (exec first w)) = _previews (exec first w)
       /\ log (exec second (exec first w))
          = log (exec first w) ++ [PreviewUpdate p (Some a_svg);
                                   PanelReveal p c].
Proof.
  split; [reflexivity|].
  apply (showPreview_found_or_created
           (0%nat, mkPreview a_svg (Some ViewColumn.Two))
           (1%nat, mkPreview a_svg (Some ViewColumn.Two))
           a_svg ViewColumn.Beside (sample_initial (Some editor_a) false)).
  right. reflexivity.
Defined.

(** C6: the editor moves to a.svg while the preview of b.svg holds focus;
    both tracked previews are updated. *)
Lemma onDidChangeActiveTextEditor_broadcast_witness :
  let w := sample_run (sample_initial None false) two_registrations in
  sample_isSvgUri (document_uri editor_a) = true
  /\ _activePreview w = Some 1%nat
  /\ toString (source_of w 1%nat) = "file:///work/b.svg"
  /\ exists rest,
       calls (onDidChangeActiveTextEditor sample_isSvgUri sample_event_name
                                          (Some editor_a)) w
       = [PreviewUpdate 0%nat (Some a_svg); PreviewUpdate 1%nat (Some a_svg)]
         ++ rest.
Proof.
  split; [reflexivity|]. split; [reflexivity|]. split; [reflexivity|].
  apply (proj2 (onDidChangeActiveTextEditor_broadcast
                  sample_isSvgUri sample_event_name
                  (sample_run (sample_initial None false) two_registrations))
               editor_a).
  - reflexivity.
  - intros a Ha. vm_compute in Ha. injection Ha as <-. vm_compute. discriminate.
Defined.

(** C7: a.svg changes while previews of a.svg and b.svg are tracked. *)
Lemma onDidChangeTextDocument_updates_match_witness :
  let w := sample_run (sample_initial None false) two_registrations in
  exists p,
    (p ∈ _previews w)
    /\ fsPath (source_of w p) = fsPath a_svg
    /\ exec (onDidChangeTextDocument a_svg) w = emit (PreviewUpdate p None) w.
Proof.
  apply (proj1 (proj2 (onDidChangeTextDocument_updates_match
                         a_svg
                         (sample_run (sample_initial None false)
                                     two_registrations)))).
  exists 0%nat. split; [|reflexivity].
  apply list_elem_of_here.
Defined.

(** C10: a.svg changes while previews 1 and 2 both show it; only preview 1
    is updated. *)
Lemma onDidChangeTextDocument_first_match_only_witness :
  let w := sample_run (sample_initial None false) three_registrations in
  _previews w = [0%nat] ++ 1%nat :: [2%nat]
  /\ fsPath (source_of w 1%nat) = fsPath a_svg
  /\ fsPath (source_of w 2%nat) = fsPath a_svg
  /\ calls (onDidChangeTextDocument a_svg) w = [PreviewUpdate 1%nat None]
  /\ forall q u, q ∈ [2%nat] -> q <> 1%nat ->
       PreviewUpdate q u ∉ calls (onDidChangeTextDocument a_svg) w.
Proof.
  split; [reflexivity|]. split; [reflexivity|]. split; [reflexivity|].
  apply (onDidChangeTextDocument_first_match_only
           a_svg (sample_run (sample_initial None false) three_registrations)
           [0%nat] [2%nat] 1%nat).
  - reflexivity.
  - reflexivity.
  - intros q Hq. apply list_elem_of_singleton in Hq. rewrite Hq.
    vm_compute. discriminate.
Defined.

(** C8, the claim as stated fails: with no active preview [showSource]
    throws at once and the host is not asked for any document. *)
Lemma showSource_throws_synchronously :
  let w := sample_initial None false in
  _activePreview w = None
  /\ result showSource w = Throw TypeError
  /\ calls showSource w = [].
Proof. vm_compute. repeat split. Qed.

(** C8: no preview is active right after construction. *)
Lemma showSource_without_active_preview_witness :
  let w := sample_initial None false in
  _activePreview w = None /\ showSource w = (Throw TypeError, w).
Proof.
  split; [reflexivity|].
  apply (proj1 (showSource_without_active_preview
                  (sample_initial None false))).
  reflexivity.
Defined.

(** C9: the extension is activated with a.svg in the active editor and
    auto-open configured. *)
Lemma constructor_auto_open_witness :
  let w := host (Some editor_a) true in
  autoOpen w = true
  /\ sample_isSvgUri (document_uri editor_a) = true
  /\ _previews (initialised w) = []
  /\ calls (constructor sample_isSvgUri sample_event_name) w
     = [SendTelemetryEvent sample_event_name [("autoOpen", "yes")];
        PreviewCreate a_svg ViewColumn.Beside].
Proof.
  split; [reflexivity|]. split; [reflexivity|]. split; [reflexivity|].
  apply (proj1 (proj2 (constructor_auto_open
                         sample_isSvgUri sample_event_name
                         (host (Some editor_a) true)))
               editor_a).
  - reflexivity.
  - split; [reflexivity|]. split; [reflexivity|].
    intros p Hp. destruct (not_elem_of_nil p Hp).
Defined.

(** ** Concrete runs of the further properties *)

Abbreviation sample_step := (step sample_isSvgUri sample_event_name).

(** X1: preview 0 of two tracked previews is disposed. *)
Lemma onDispose_tracked_removes_only_it_witness :
  let w := sample_run (sample_initial None false) two_registrations in
  let w' := sample_step w (Fire_onDispose 0%nat) in
  _previews w = [0; 1]%nat
  /\ (exists l1 l2, _previews w = l1 ++ 0%nat :: l2
                    /\ (0%nat ∉ l1)
                    /\ _previews w' = l1 ++ l2)
  /\ (forall q, q <> 0%nat -> (q ∈ _previews w' <-> q ∈ _previews w))
  /\ S (length (_previews w')) = length (_previews w).
Proof.
  split; [reflexivity|].
  apply (onDispose_tracked_removes_only_it sample_isSvgUri sample_event_name
           0%nat (sample_run (sample_initial None false) two_registrations)).
  apply list_elem_of_here.
Defined.

(** X2: preview 5 was never registered; its disposal callback evicts
    preview 1. *)
Lemma onDispose_untracked_removes_newest_witness :
  let w := sample_run (sample_initial None false) two_registrations in
  let w' := sample_step w (Fire_onDispose 5%nat) in
  _previews w = [0%nat] ++ [1%nat]
  /\ result (onDispose_callback 5%nat) w = Normal tt
  /\ _previews w' = [0%nat].
Proof.
  split; [reflexivity|].
  assert (H : 5%nat ∉ _previews (sample_run (sample_initial None false)
                                            two_registrations)).
  { apply (bool_decide_unpack _). vm_compute. exact I. }
  destruct (onDispose_untracked_removes_newest sample_isSvgUri
              sample_event_name 5%nat _ H) as (Hr & _ & Hl).
  split; [exact Hr|]. apply (Hl [0%nat] 1%nat). reflexivity.
Defined.

(** X3: a third preview is restored and closed while preview 1 holds the
    focus. *)
Lemma register_then_dispose_witness :
  let w := sample_run (sample_initial None false) two_registrations in
  let w' := sample_run w [Resolve_revive 2%nat (mkPreview a_svg (Some 2));
                          Fire_onDispose 2%nat] in
  _activePreview w = Some 1%nat
  /\ _previews w' = _previews w
  /\ _activePreview w' = None
  /\ focusFlag w' = false.
Proof.
  split; [reflexivity|].
  apply (register_then_dispose sample_isSvgUri sample_event_name 2%nat
           (mkPreview a_svg (Some 2))
           (sample_run (sample_initial None false) two_registrations)).
  apply (bool_decide_unpack _). vm_compute. exact I.
Defined.

(** X5: preview 1 is tracked after the two registrations. *)
Lemma tracked_previews_were_registered_witness :
  (1%nat ∈ _previews (sample_run (sample_initial None false)
                                 two_registrations))
  /\ (1%nat ∈ registered two_registrations).
Proof.
  assert (H : 1%nat ∈ _previews (sample_run (sample_initial None false)
                                            two_registrations)).
  { apply (bool_decide_unpack _). vm_compute. exact I. }
  split; [exact H|].
  exact (tracked_previews_were_registered sample_isSvgUri sample_event_name
           None false two_registrations 1%nat H).
Defined.

(** X6: a.svg changes while two previews are tracked. *)
Lemma other_events_keep_tracking_witness :
  let w := sample_run (sample_initial None false) two_registrations in
  let w' := sample_step w (Fire_onDidChangeTextDocument a_svg) in
  of_registration (Fire_onDidChangeTextDocument a_svg) = false
  /\ _previews w' = _previews w
  /\ _activePreview w' = _activePreview w
  /\ contextKeys w' = contextKeys w.
Proof.
  split; [reflexivity|].
  apply (other_events_keep_tracking sample_isSvgUri sample_event_name
           (sample_run (sample_initial None false) two_registrations)
           (Fire_onDidChangeTextDocument a_svg)).
  reflexivity.
Defined.

(** X7: after the focus churn only preview 0 is live. *)
Lemma previews_are_the_live_ones_witness :
  lifecycle [] focus_churn = true
  /\ fold_left live_after focus_churn [] = [0%nat]
  /\ _previews (sample_run (sample_initial None false) focus_churn)
     = fold_left live_after focus_churn [].
Proof.
  split; [reflexivity|]. split; [reflexivity|].
  apply (previews_are_the_live_ones sample_isSvgUri sample_event_name
           None false focus_churn).
  reflexivity.
Defined.

(** X8: two previews in columns two and three, no active text editor. *)
Lemma showPreview_without_editor_creates_witness :
  let w := sample_run (sample_initial None false) two_registrations in
  activeTextEditor w = None
  /\ viewColumn_of w 0%nat = Some 2
  /\ viewColumn_of w 1%nat = Some 3
  /\ result (getPreviewOnTargetColumn ViewColumn.Beside) w = Normal None
  /\ calls (showPreview a_svg ViewColumn.Beside) w
     = [PreviewCreate a_svg ViewColumn.Beside].
Proof.
  split; [reflexivity|]. split; [reflexivity|]. split; [reflexivity|].
  apply (showPreview_without_editor_creates a_svg ViewColumn.Beside
           (sample_run (sample_initial None false) two_registrations)).
  - reflexivity.
  - intros p Hp.
    change (p ∈ [0; 1]%nat) in Hp.
    apply elem_of_cons in Hp as [->|Hp].
    + vm_compute. discriminate.
    + apply list_elem_of_singleton in Hp. rewrite Hp.
      vm_compute. discriminate.
Defined.

(** X9: the active editor has no view column; a preview is asked for
    beside it. *)
Lemma showPreview_editor_without_column_creates_witness :
  let w := sample_run (sample_initial (Some (mkEditor a_svg None)) false)
                      two_registrations in
  activeTextEditor w = Some (mkEditor a_svg None)
  /\ result (getPreviewOnTargetColumn ViewColumn.Beside) w = Normal None
  /\ calls (showPreview a_svg ViewColumn.Beside) w
     = [PreviewCreate a_svg ViewColumn.Beside].
Proof.
  split; [reflexivity|].
  apply (showPreview_editor_without_column_creates a_svg ViewColumn.Beside
           (sample_run (sample_initial (Some (mkEditor a_svg None)) false)
                       two_registrations)
           (mkEditor a_svg None)).
  - reflexivity.
  - reflexivity.
  - discriminate.
Defined.

(** X10: the command is run twice on a.svg before any preview exists. *)
Lemma showPreview_twice_before_resolution_witness :
  let w := sample_initial (Some editor_a) false in
  let w' := sample_run w [Call_showPreview a_svg ViewColumn.Beside;
                          Call_showPreview a_svg ViewColumn.Beside] in
  result (getPreviewOnTargetColumn ViewColumn.Beside) w = Normal None
  /\ log w' = log w ++ [PreviewCreate a_svg ViewColumn.Beside;
                        PreviewCreate a_svg ViewColumn.Beside]
  /\ _previews w' = _previews w.
Proof.
  split; [reflexivity|].
  apply (showPreview_twice_before_resolution sample_isSvgUri sample_event_name
           a_svg a_svg ViewColumn.Beside (sample_initial (Some editor_a) false)).
  reflexivity.
Defined.

(** X12: the editor moves to a text file while two previews are tracked. *)
Lemma onDidChangeActiveTextEditor_not_svg_witness :
  let w := sample_run (sample_initial None true) two_registrations in
  let editor := mkEditor notes_txt (Some ViewColumn.One) in
  sample_isSvgUri (document_uri editor) = false
  /\ onDidChangeActiveTextEditor sample_isSvgUri sample_event_name
                                 (Some editor) w
     = (Normal tt, w).
Proof.
  split; [reflexivity|].
  apply (onDidChangeActiveTextEditor_not_svg sample_isSvgUri sample_event_name
           (mkEditor notes_txt (Some ViewColumn.One))
           (sample_run (sample_initial None true) two_registrations)).
  reflexivity.
Defined.

(** X13: the editor moves to b.svg, the source of the focused preview 1. *)
Lemma onDidChangeActiveTextEditor_active_source_witness :
  let w := sample_run (sample_initial None true) two_registrations in
  let editor := mkEditor b_svg (Some ViewColumn.One) in
  _activePreview w = Some 1%nat
  /\ source_of w 1%nat = b_svg
  /\ onDidChangeActiveTextEditor sample_isSvgUri sample_event_name
                                 (Some editor) w
     = (Normal tt, w).
Proof.
  split; [reflexivity|]. split; [reflexivity|].
  apply (onDidChangeActiveTextEditor_active_source sample_isSvgUri
           sample_event_name (mkEditor b_svg (Some ViewColumn.One))
           (sample_run (sample_initial None true) two_registrations) 1%nat).
  - reflexivity.
  - reflexivity.
  - right. exists 1%nat. split; [|reflexivity].
    apply (bool_decide_unpack _). vm_compute. exact I.
Defined.

(** X14: auto-open is off and the editor moves to a.svg: the two tracked
    previews are updated and nothing else is called. *)
Lemma onDidChangeActiveTextEditor_autoOpen_off_witness :
  let w := sample_run (sample_initial None false) two_registrations in
  let h := onDidChangeActiveTextEditor sample_isSvgUri sample_event_name
                                       (Some editor_a) in
  autoOpen w = false
  /\ calls h w = [PreviewUpdate 0%nat (Some a_svg);
                  PreviewUpdate 1%nat (Some a_svg)]
  /\ (calls h w = []
      \/ calls h w = map (fun p => PreviewUpdate p (Some (document_uri editor_a)))
                         (_previews w))
  /\ _previews (exec h w) = _previews w
  /\ _activePreview (exec h w) = _activePreview w.
Proof.
  split; [reflexivity|]. split; [reflexivity|].
  apply (onDidChangeActiveTextEditor_autoOpen_off sample_isSvgUri
           sample_event_name editor_a
           (sample_run (sample_initial None false) two_registrations)).
  reflexivity.
Defined.

(** X15: auto-open is on, nothing is tracked, the editor moves to a.svg. *)
Lemma onDidChangeActiveTextEditor_auto_open_witness :
  let w := sample_initial None true in
  autoOpen w = true
  /\ sample_isSvgUri (document_uri editor_a) = true
  /\ _previews w = []
  /\ calls (onDidChangeActiveTextEditor sample_isSvgUri sample_event_name
                                        (Some editor_a)) w
     = [SendTelemetryEvent sample_event_name [("autoOpen", "yes")];
        PreviewCreate a_svg ViewColumn.Beside].
Proof.
  split; [reflexivity|]. split; [reflexivity|]. split; [reflexivity|].
  apply (onDidChangeActiveTextEditor_auto_open sample_isSvgUri
           sample_event_name editor_a (sample_initial None true));
    reflexivity.
Defined.
